(** * ngauth/server, docs/samples/testcontainers-python/api.py

    A shallow embedding of the bearer-token gate of the sample API:
    [verify_token] (lines 32-60) and [require_scope] (lines 63-77), together
    with the third-party pieces they call (FastAPI's [HTTPBearer], PyJWT's
    [PyJWKClient] and [jwt.decode]), and the properties the design document
    states about them. *)

From Stdlib Require Import ZArith NArith String Ascii List Bool Lia.
From stdpp Require Import gmap strings list fin_maps.

Set Warnings "-register-all".
Local Open Scope Z_scope.

(** ** Python values *)

(** A Python [str] is a sequence of Unicode code points. *)
Abbreviation str := (list N).

(** An ASCII literal as a Python [str]. *)
Definition py (s : string) : str :=
  map N_of_ascii (list_ascii_of_string s).

(** [str.isspace] on one code point: the code points CPython's
    [str.split()] treats as separators. *)
Definition isspace (c : N) : bool :=
  ((9 <=? c) && (c <=? 13) || (28 <=? c) && (c <=? 32)
   || (c =? 133) || (c =? 160) || (c =? 5760)
   || (8192 <=? c) && (c <=? 8202)
   || (c =? 8232) || (c =? 8233) || (c =? 8239) || (c =? 8287)
   || (c =? 12288))%N.

(** [str.split()] without arguments: runs of whitespace separate the words,
    and no empty word is produced.  [word] is the word being scanned. *)
Fixpoint split_from (word s : str) : list str :=
  match s with
  | [] => match word with [] => [] | _ :: _ => [word] end
  | c :: rest =>
      if isspace c then
        match word with
        | [] => split_from [] rest
        | _ :: _ => word :: split_from [] rest
        end
      else split_from (word ++ [c]) rest
  end.

Definition split (s : str) : list str := split_from [] s.

(** [str.partition(" ")]: the text before the first space and the text
    after it (both empty parts when there is no space). *)
Fixpoint partition_space (s : str) : str * str :=
  match s with
  | [] => ([], [])
  | c :: rest =>
      if (c =? 32)%N then ([], rest)
      else let '(a, b) := partition_space rest in (c :: a, b)
  end.

(** [str.lower] on header text.  Starlette decodes header values as
    Latin-1, so only code points below 256 occur there. *)
Definition lower_char (c : N) : N :=
  (if (65 <=? c) && (c <=? 90) then c + 32
   else if (192 <=? c) && (c <=? 222) && negb (c =? 215) then c + 32
   else c)%N.

Definition lower (s : str) : str := map lower_char s.

(** IEEE-754 doubles, as far as truthiness needs them. *)
Inductive pyfloat : Type :=
  | FZero (negative : bool)
  | FNonZero (negative : bool) (mantissa : positive) (exponent : Z)
  | FInf (negative : bool)
  | FNaN.

(** What [json.loads] produces: the values of a [Dict[str, Any]]. *)
Inductive value : Type :=
  | JNull
  | JBool (b : bool)
  | JInt (z : Z)
  | JFloat (f : pyfloat)
  | JString (s : str)
  | JArray (l : list value)
  | JObject (m : gmap str value).

(** Python truthiness ([if token_scope]). *)
Definition truthy (v : value) : bool :=
  match v with
  | JNull => false
  | JBool b => b
  | JInt z => negb (z =? 0)
  | JFloat (FZero _) => false
  | JFloat _ => true
  | JString s => match s with [] => false | _ => true end
  | JArray l => match l with [] => false | _ => true end
  | JObject m => negb (bool_decide (m = ∅))
  end.

Definition type_name (v : value) : str :=
  match v with
  | JNull => py "NoneType"
  | JBool _ => py "bool"
  | JInt _ => py "int"
  | JFloat _ => py "float"
  | JString _ => py "str"
  | JArray _ => py "list"
  | JObject _ => py "dict"
  end.

(** ** Exceptions *)

(** The verifier's error taxonomy (design document, section 7), with the
    audience failure that the code switches off. *)
Inductive VerificationError : Type :=
  | Malformed
  | UnsupportedAlgorithm
  | UnknownKey
  | BadSignature
  | Expired
  | NotYetValid
  | KeySourceUnavailable
  | InvalidAudience.

(** [fastapi.HTTPException(status_code, detail, headers)]. *)
Record HTTPException : Type := mkHTTPException {
  status_code : Z;
  detail : str;
  headers : option (gmap str str)
}.

Definition HTTP_401_UNAUTHORIZED : Z := 401.
Definition HTTP_403_FORBIDDEN : Z := 403.

(** The exceptions that can travel through the gate.  All of them derive
    from [Exception]. *)
Inductive exception : Type :=
  | VerificationExc (e : VerificationError) (msg : str)
  | AttributeError (msg : str)
  | OtherException (msg : str)
  | HTTPExc (h : HTTPException).

(** [isinstance(e, jwt.InvalidTokenError)]: PyJWT derives the token errors
    from [InvalidTokenError] and the key-client errors
    ([PyJWKClientError], [PyJWKClientConnectionError]) from [PyJWTError]
    only. *)
Definition isinstance_InvalidTokenError (e : exception) : bool :=
  match e with
  | VerificationExc UnknownKey _ => false
  | VerificationExc KeySourceUnavailable _ => false
  | VerificationExc _ _ => true
  | _ => false
  end.

(** [str(e)]. *)
Definition exc_str (e : exception) : str :=
  match e with
  | VerificationExc _ msg => msg
  | AttributeError msg => msg
  | OtherException msg => msg
  | HTTPExc h => detail h
  end.

(** A computation that returns or raises. *)
Inductive result (A : Type) : Type :=
  | Ok (a : A)
  | Raise (e : exception).
Arguments Ok {A} a.
Arguments Raise {A} e.

#[global] Instance result_ret : MRet result := fun A a => Ok a.
#[global] Instance result_bind : MBind result := fun A B k r =>
  match r with
  | Ok a => k a
  | Raise e => Raise e
  end.

(** ** [require_scope] (api.py, lines 63-77) *)

(** [token_scope.split()]: only [str] has the method. *)
Definition value_split (v : value) : result (list str) :=
  match v with
  | JString s => Ok (split s)
  | _ => Raise (AttributeError
                  (py "'" ++ type_name v ++ py "' object has no attribute 'split'"))
  end.

(** Lines 68-69: the granted scopes of a claim set. *)
Definition granted_scopes (token_data : gmap str value) : result (list str) :=
  let token_scope := default (JString (py "")) (token_data !! py "scope") in
  if truthy token_scope then value_split token_scope else Ok [].

(** The closure [scope_checker] that [require_scope(required_scope)]
    returns, applied to the claim set injected by [Depends(verify_token)]. *)
Definition scope_checker (required_scope : str) (token_data : gmap str value)
  : result (gmap str value) :=
  scopes ← granted_scopes token_data;
  if negb (bool_decide (required_scope ∈ scopes)) then
    Raise (HTTPExc {| status_code := HTTP_403_FORBIDDEN;
                      detail := py "Insufficient scope. Required: " ++ required_scope;
                      headers := None |})
  else Ok token_data.

Definition require_scope (required_scope : str)
  : gmap str value -> result (gmap str value) :=
  scope_checker required_scope.

(** ** The bearer extractor ([security = HTTPBearer()], api.py line 11) *)

Record Request : Type := mkRequest {
  authorization : option str   (* the [Authorization] header, if sent *)
}.

Record HTTPAuthorizationCredentials : Type := mkCredentials {
  scheme : str;
  credentials : str
}.

Definition get_authorization_scheme_param (authorization_header_value : option str)
  : str * str :=
  match authorization_header_value with
  | None => ([], [])
  | Some [] => ([], [])
  | Some v => partition_space v
  end.

Definition nonempty (s : str) : bool :=
  match s with [] => false | _ :: _ => true end.

(** Modelled from the spec: [fastapi.security.HTTPBearer] is third-party
    code, absent from the repository.  Section 4.4: the [Authorization]
    header must carry the scheme [Bearer] (compared case-insensitively)
    followed by the token; a missing header or a wrong scheme is rejected.
    The status of that rejection in the reference deployment is 403
    (section 9, and [test_protected_endpoint_no_auth] in test_api.py,
    line 155: "FastAPI returns 403 when no credentials"). *)
Definition HTTPBearer (request : Request) : result HTTPAuthorizationCredentials :=
  let '(scheme, credentials) :=
    get_authorization_scheme_param (authorization request) in
  if negb (nonempty (default [] (authorization request))
           && nonempty scheme && nonempty credentials) then
    Raise (HTTPExc {| status_code := HTTP_403_FORBIDDEN;
                      detail := py "Not authenticated";
                      headers := None |})
  else if negb (bool_decide (lower scheme = py "bearer")) then
    Raise (HTTPExc {| status_code := HTTP_403_FORBIDDEN;
                      detail := py "Invalid authentication credentials";
                      headers := None |})
  else Ok {| scheme := scheme; credentials := credentials |}.

(** ** [verify_token] (api.py, lines 32-60) *)

(** [PyJWK]: a published signing key; [signing_key.key] is its material. *)
Record PyJWK (K : Type) : Type := mkPyJWK {
  key_id : str;
  key : K
}.
Arguments mkPyJWK {K} key_id key.
Arguments key_id {K} p.
Arguments key {K} p.

Section Api.
(** [K]: key material.  [S]: the state of the process-wide
    [jwks_client] (line 18). *)
Context {K S : Type}.

(** The two PyJWT entry points the function calls. *)
Variable get_signing_key_from_jwt : str -> S -> S * result (PyJWK K).
Variable jwt_decode :
  str -> K -> list str -> option (list str) -> gmap str bool ->
  result (gmap str value).

(** The body of the [try] (lines 37-48). *)
Definition verify_token_try (creds : HTTPAuthorizationCredentials) (st : S)
  : S * result (gmap str value) :=
  let token := credentials creds in
  let '(st', r) := get_signing_key_from_jwt token st in
  match r with
  | Raise e => (st', Raise e)
  | Ok signing_key =>
      (st', jwt_decode token (key signing_key)
              [py "RS256"]
              None
              {[ py "verify_aud" := false ]})
  end.

(** The two handlers (lines 49-60). *)
Definition verify_token (creds : HTTPAuthorizationCredentials) (st : S)
  : S * result (gmap str value) :=
  let '(st', r) := verify_token_try creds st in
  match r with
  | Ok decoded => (st', Ok decoded)
  | Raise e =>
      if isinstance_InvalidTokenError e then
        (st', Raise (HTTPExc
           {| status_code := HTTP_401_UNAUTHORIZED;
              detail := py "Invalid token: " ++ exc_str e;
              headers := Some {[ py "WWW-Authenticate" := py "Bearer" ]} |}))
      else
        (st', Raise (HTTPExc
           {| status_code := HTTP_401_UNAUTHORIZED;
              detail := py "Could not validate credentials: " ++ exc_str e;
              headers := Some {[ py "WWW-Authenticate" := py "Bearer" ]} |}))
  end.

(** [Depends(verify_token)] over [Depends(security)]: the gate of
    [/api/protected] and [/api/userinfo]. *)
Definition protected_gate (request : Request) (st : S)
  : S * result (gmap str value) :=
  match HTTPBearer request with
  | Raise e => (st, Raise e)
  | Ok creds => verify_token creds st
  end.

(** [Depends(require_scope(required_scope))]: the gate of the
    scope-protected endpoints ([/api/data]). *)
Definition scope_gate (required_scope : str) (request : Request) (st : S)
  : S * result (gmap str value) :=
  let '(st', r) := protected_gate request st in
  (st', token_data ← r; require_scope required_scope token_data).

(** What the client sees: FastAPI turns an [HTTPException] into a
    response with its status, any other exception into a 500, and lets
    the handler run otherwise. *)
Definition response_status (handler_status : Z) (r : result (gmap str value)) : Z :=
  match r with
  | Ok _ => handler_status
  | Raise (HTTPExc h) => status_code h
  | Raise _ => 500
  end.
End Api.

(** ** The verification library (PyJWT), as the design document describes it *)

(** A compact JWT after standard decoding: the header fields the verifier
    reads, the payload, and the two byte strings the signature check
    compares. *)
Record Jws : Type := mkJws {
  alg : option str;
  kid : option str;
  payload : gmap str value;
  signing_input : list N;
  signature : list N
}.

(** The process-wide key client: the cached key set, and the number of
    outbound JWKS requests made so far. *)
Record JwksClient (K : Type) : Type := mkJwksClient {
  cache : option (gmap str (PyJWK K));
  fetches : nat
}.
Arguments mkJwksClient {K} cache fetches.
Arguments cache {K} j.
Arguments fetches {K} j.

Section PyJWT.
Context {K : Type}.

(** What lies outside the pipeline: the decoding of the three segments
    ([None]: not a well-formed compact JWT), the signature primitive of
    an algorithm, the JWKS document the authorization server answers to
    the n-th request ([None]: unreachable, timed out, unparsable or
    without usable key), the clock, the audience comparison, and the
    wording of the errors. *)
Variable load : str -> option Jws.
Variable verify_signature : str -> K -> list N -> list N -> bool.
Variable jwks_document : nat -> option (gmap str (PyJWK K)).
Variable now : Z.
Variable audience_matches : option (list str) -> gmap str value -> bool.
Variable message : VerificationError -> str.

Definition raise {A : Type} (e : VerificationError) : result A :=
  Raise (VerificationExc e (message e)).

(** Modelled from the spec: [PyJWKClient.fetch_data] is third-party code.
    Section 4.1: one outbound call per fetch; the parsed key set is cached
    in memory; a network or parse failure is [KeySourceUnavailable]. *)
Definition fetch (st : JwksClient K)
  : JwksClient K * result (gmap str (PyJWK K)) :=
  match jwks_document (fetches st) with
  | Some ks => ({| cache := Some ks; fetches := Datatypes.S (fetches st) |}, Ok ks)
  | None => ({| cache := cache st; fetches := Datatypes.S (fetches st) |},
             raise KeySourceUnavailable)
  end.

Definition find_key (ks : gmap str (PyJWK K)) (keyId : option str)
  : option (PyJWK K) :=
  match keyId with
  | Some k => ks !! k
  | None => None
  end.

(** Modelled from the spec: [PyJWKClient.get_signing_key] is third-party
    code.  Section 4.1, [resolve(keyId)]: the first call fetches the key
    set; when [keyId] is absent from the cached set, exactly one re-fetch
    is attempted before [NotFound], which the verifier reports as
    [UnknownKey] (section 4.2, step 4). *)
Definition resolve (keyId : option str) (st : JwksClient K)
  : JwksClient K * result (PyJWK K) :=
  let '(st1, r1) :=
    match cache st with
    | Some ks => (st, Ok ks)
    | None => fetch st
    end in
  match r1 with
  | Raise e => (st1, Raise e)
  | Ok ks =>
      match find_key ks keyId with
      | Some k => (st1, Ok k)
      | None =>
          let '(st2, r2) := fetch st1 in
          match r2 with
          | Raise e => (st2, Raise e)
          | Ok ks' =>
              match find_key ks' keyId with
              | Some k => (st2, Ok k)
              | None => (st2, raise UnknownKey)
              end
          end
      end
  end.

(** Modelled from the spec: [PyJWKClient.get_signing_key_from_jwt] is
    third-party code.  Section 4.2, steps 1, 2 and 4: the token is decoded
    without trusting it, to read [kid], and the key is resolved.  The
    call receives the token only (api.py line 38): the pinned algorithm
    is not among its inputs. *)
Definition get_signing_key_from_jwt (token : str) (st : JwksClient K)
  : JwksClient K * result (PyJWK K) :=
  match load token with
  | None => (st, raise Malformed)
  | Some jws => resolve (kid jws) st
  end.

(** Section 4.2, step 6: a temporal claim, when present, is a number of
    seconds; [exp] must lie after the current time and [nbf] not after
    it. *)
Definition check_exp (claims : gmap str value) : result unit :=
  match claims !! py "exp" with
  | None => Ok tt
  | Some (JInt e) => if e <=? now then raise Expired else Ok tt
  | Some _ => raise Malformed
  end.

Definition check_nbf (claims : gmap str value) : result unit :=
  match claims !! py "nbf" with
  | None => Ok tt
  | Some (JInt n) => if now <? n then raise NotYetValid else Ok tt
  | Some _ => raise Malformed
  end.

(** [options.get(name, True)]: a check runs unless the caller switches
    it off. *)
Definition enabled (options : gmap str bool) (name : str) : bool :=
  default true (options !! name).

(** Modelled from the spec: [jwt.decode] is third-party code.
    Section 4.2, steps 1-3 and 5-7, in that order, with the arguments
    api.py passes (lines 40-46): the accepted algorithms, the expected
    audience and the options. *)
Definition jwt_decode (token : str) (k : K) (algorithms : list str)
    (audience : option (list str)) (options : gmap str bool)
  : result (gmap str value) :=
  match load token with
  | None => raise Malformed
  | Some jws =>
      match alg jws with
      | None => raise UnsupportedAlgorithm
      | Some a =>
          if negb (bool_decide (a ∈ algorithms)) then raise UnsupportedAlgorithm
          else if negb (verify_signature a k (signing_input jws) (signature jws))
          then raise BadSignature
          else
            _ ← check_exp (payload jws);
            _ ← check_nbf (payload jws);
            if enabled options (py "verify_aud")
               && negb (audience_matches audience (payload jws))
            then raise InvalidAudience
            else Ok (payload jws)
      end
  end.

(** The sample's verifier and gates, over this library. *)
Definition verify (creds : HTTPAuthorizationCredentials) (st : JwksClient K)
  : JwksClient K * result (gmap str value) :=
  verify_token get_signing_key_from_jwt jwt_decode creds st.

Definition verify_try (creds : HTTPAuthorizationCredentials) (st : JwksClient K)
  : JwksClient K * result (gmap str value) :=
  verify_token_try get_signing_key_from_jwt jwt_decode creds st.

Definition gate (required_scope : str) (request : Request) (st : JwksClient K)
  : JwksClient K * result (gmap str value) :=
  scope_gate get_signing_key_from_jwt jwt_decode required_scope request st.
End PyJWT.

(** ** Splitting on whitespace, as the design document words it *)

Definition nonspace (w : str) : Prop := Forall (fun c => isspace c = false) w.

Definition ends_with_space (pre : str) : Prop :=
  pre = [] ∨ ∃ p c, pre = p ++ [c] ∧ isspace c = true.

Definition starts_with_space (suf : str) : Prop :=
  suf = [] ∨ ∃ c r, suf = c :: r ∧ isspace c = true.

(** Section 4.3, "splits on whitespace into a set of granted scope names":
    [w] is one of the scope names of [s] when it is a non-empty run of
    [s] without whitespace that whitespace, or an end of [s], bounds on
    both sides. *)
Definition scope_name_of (w s : str) : Prop :=
  w ≠ [] ∧ nonspace w ∧
  ∃ pre suf, s = pre ++ w ++ suf ∧ ends_with_space pre ∧ starts_with_space suf.

(** The rejection of line 72. *)
Definition insufficient_scope (required_scope : str) : exception :=
  HTTPExc {| status_code := 403;
             detail := py "Insufficient scope. Required: " ++ required_scope;
             headers := None |}.

(** The challenge of lines 53 and 59. *)
Definition bearer_challenge : option (gmap str str) :=
  Some {[ py "WWW-Authenticate" := py "Bearer" ]}.

(** The rejection of lines 50-54 and 56-60, whatever the detail. *)
Definition unauthorized (d : str) : exception :=
  HTTPExc {| status_code := 401; detail := d; headers := bearer_challenge |}.

(** ** A small deployment, for concrete runs *)

Module Sample.
Definition k1 : PyJWK nat := mkPyJWK (py "k1") 11%nat.
Definition k2 : PyJWK nat := mkPyJWK (py "k2") 22%nat.

(** The key set before and after a rotation. *)
Definition jwks_document (n : nat) : option (gmap str (PyJWK nat)) :=
  match n with
  | O => Some {[ py "k1" := k1 ]}
  | _ => Some (<[ py "k2" := k2 ]> {[ py "k1" := k1 ]})
  end.

Definition now : Z := 1000.

(** A signature primitive that accepts the byte [1] under every
    algorithm name: the token of an algorithm-confusion attack
    "validates" under the algorithm it declares. *)
Definition verify_signature (a : str) (k : nat) (input sig : list N) : bool :=
  bool_decide (sig = [1%N]).

(** An audience comparison that never matches. *)
Definition audience_matches (audience : option (list str))
    (claims : gmap str value) : bool := false.

Definition message (e : VerificationError) : str :=
  match e with
  | Malformed => py "Not enough segments"
  | UnsupportedAlgorithm => py "The specified alg value is not allowed"
  | UnknownKey => py "Unable to find a signing key"
  | BadSignature => py "Signature verification failed"
  | Expired => py "Signature has expired"
  | NotYetValid => py "The token is not yet valid (nbf)"
  | KeySourceUnavailable => py "Fail to fetch data from the url"
  | InvalidAudience => py "Invalid audience"
  end.

Definition claims_of (scope : value) (extra : list (str * value))
  : gmap str value :=
  <[ py "scope" := scope ]> (<[ py "sub" := JString (py "client-1") ]>
                               (list_to_map extra)).

Definition jws_of (a k : string) (claims : gmap str value) (sig : N) : Jws :=
  {| alg := Some (py a); kid := Some (py k); payload := claims;
     signing_input := [7%N]; signature := [sig] |}.

(** The tokens of the runs below, by name. *)
Definition tokens : list (string * Jws) :=
  [ ("read-write", jws_of "RS256" "k1"
       (claims_of (JString (py "read write"))
          [(py "exp", JInt 2000); (py "aud", JString (py "someone-else"))]) 1);
    ("write-only", jws_of "RS256" "k1" (claims_of (JString (py "write")) []) 1);
    ("capitals", jws_of "RS256" "k1" (claims_of (JString (py "Read Write")) []) 1);
    ("scope-array", jws_of "RS256" "k1"
       (claims_of (JArray [JString (py "read")]) []) 1);
    ("hs256", jws_of "HS256" "k1" (claims_of (JString (py "read")) []) 1);
    ("hs256-unknown-kid", jws_of "HS256" "k9" (claims_of (JString (py "read")) []) 1);
    ("rotated", jws_of "RS256" "k2" (claims_of (JString (py "read")) []) 1);
    ("unknown-kid", jws_of "RS256" "k9" (claims_of (JString (py "read")) []) 1);
    ("expired", jws_of "RS256" "k1"
       (claims_of (JString (py "read")) [(py "exp", JInt 500)]) 1);
    ("expired-forged", jws_of "RS256" "k1"
       (claims_of (JString (py "read")) [(py "exp", JInt 500)]) 0);
    ("premature", jws_of "RS256" "k1"
       (claims_of (JString (py "read")) [(py "nbf", JInt 5000)]) 1) ].

Fixpoint lookup_token (l : list (string * Jws)) (t : str) : option Jws :=
  match l with
  | [] => None
  | (name, j) :: l' =>
      if bool_decide (py name = t) then Some j else lookup_token l' t
  end.

Definition load (t : str) : option Jws := lookup_token tokens t.

Definition bearer (t : string) : Request :=
  {| authorization := Some (py "Bearer " ++ py t) |}.

Definition creds (t : string) : HTTPAuthorizationCredentials :=
  {| scheme := py "Bearer"; credentials := py t |}.

(** The key client after its first fetch, and before it. *)
Definition warm : JwksClient nat :=
  {| cache := Some {[ py "k1" := k1 ]}; fetches := 1 |}.
Definition cold : JwksClient nat := {| cache := None; fetches := 0 |}.

Definition get_signing_key_from_jwt :=
  get_signing_key_from_jwt load jwks_document message.
Definition jwt_decode :=
  jwt_decode load verify_signature now audience_matches message.
Definition verify_try :=
  verify_try load verify_signature jwks_document now audience_matches message.
Definition verify :=
  verify load verify_signature jwks_document now audience_matches message.
Definition gate :=
  gate load verify_signature jwks_document now audience_matches message.
End Sample.

(** ** The endpoints (api.py, lines 80-130) *)

(** [DataItem] (lines 21-22): the body of [POST /api/data], once FastAPI
    has validated it.  A body that fails validation never reaches the
    handler; FastAPI answers it (422) and that path is not part of this
    embedding. *)
Record DataItem : Type := mkDataItem {
  name : str
}.

(** [d.get(k)]: the value, or [None]. *)
Definition dict_get (d : gmap str value) (k : str) : value :=
  default JNull (d !! k).

(** [a or b]. *)
Definition py_or (a b : value) : value := if truthy a then a else b.

(** Lines 82-84. *)
Definition get_public : value :=
  JObject {[ py "message" := JString (py "This is a public endpoint") ]}.

(** Lines 89-91. *)
Definition get_protected (token_data : gmap str value) : value :=
  JObject {[ py "message" := JString (py "This endpoint requires authentication") ]}.

(** Lines 96-98. *)
Definition get_data (token_data : gmap str value) : value :=
  JObject {[ py "data" := JArray [JString (py "item1"); JString (py "item2");
                                   JString (py "item3")] ]}.

(** Lines 103-111; [uuid4] is the text of the identifier [uuid.uuid4()]
    draws. *)
Definition create_data (item : DataItem) (token_data : gmap str value)
    (uuid4 : str) : value :=
  JObject (<[ py "message" := JString (py "Created item: " ++ name item) ]>
             {[ py "id" := JString uuid4 ]}).

(** Lines 116-123. *)
Definition get_userinfo (token_data : gmap str value) : value :=
  JObject (<[ py "userId" := dict_get token_data (py "sub") ]>
          (<[ py "username" := py_or (dict_get token_data (py "name"))
                                     (dict_get token_data (py "username")) ]>
          (<[ py "email" := dict_get token_data (py "email") ]>
           {[ py "claims" := JObject token_data ]}))).

(** Lines 128-130. *)
Definition health : value :=
  JObject {[ py "status" := JString (py "healthy") ]}.

(** The routes the decorators declare. *)
Inductive endpoint : Type :=
  | ApiPublic                      (* GET  /api/public    *)
  | ApiProtected                   (* GET  /api/protected *)
  | ApiDataGet                     (* GET  /api/data      *)
  | ApiDataPost (item : DataItem)  (* POST /api/data      *)
  | ApiUserinfo                    (* GET  /api/userinfo  *)
  | HealthLive.                    (* GET  /health/live   *)

(** What a route declares in its signature: nothing, [Depends(verify_token)]
    or [Depends(require_scope(...))]. *)
Inductive dependency : Type :=
  | Open
  | Authenticated
  | Scoped (required_scope : str).

Definition dependency_of (e : endpoint) : dependency :=
  match e with
  | ApiPublic => Open
  | ApiProtected => Authenticated
  | ApiDataGet => Scoped (py "read")
  | ApiDataPost _ => Scoped (py "write")
  | ApiUserinfo => Authenticated
  | HealthLive => Open
  end.

(** The status of a successful answer: 200, or the [status_code] of the
    decorator (line 102). *)
Definition success_status (e : endpoint) : Z :=
  match e with
  | ApiDataPost _ => 201
  | _ => 200
  end.

Inductive content : Type :=
  | JSON (v : value)
  | PlainText (s : str).

Record Response : Type := mkResponse {
  resp_status : Z;
  resp_body : content;
  resp_headers : option (gmap str str)
}.

(** What FastAPI answers: the handler's value with the route's status, an
    [HTTPException] as its status, headers and [{"detail": ...}], any
    other exception as a 500. *)
Definition respond (status : Z) (r : result value) : Response :=
  match r with
  | Ok v => {| resp_status := status; resp_body := JSON v; resp_headers := None |}
  | Raise (HTTPExc h) =>
      {| resp_status := status_code h;
         resp_body := JSON (JObject {[ py "detail" := JString (detail h) ]});
         resp_headers := headers h |}
  | Raise _ =>
      {| resp_status := 500;
         resp_body := PlainText (py "Internal Server Error");
         resp_headers := None |}
  end.

Section Endpoints.
Context {K S : Type}.
Variable get_signing_key_from_jwt : str -> S -> S * result (PyJWK K).
Variable jwt_decode :
  str -> K -> list str -> option (list str) -> gmap str bool ->
  result (gmap str value).

(** One request to one route: the dependencies run first, then the
    handler.  For [POST /api/data] the request is one whose body FastAPI
    has accepted as [item]. *)
Definition serve (e : endpoint) (request : Request) (uuid4 : str) (st : S)
  : S * Response :=
  match e with
  | ApiPublic => (st, respond 200 (Ok get_public))
  | ApiProtected =>
      let '(st', r) := protected_gate get_signing_key_from_jwt jwt_decode request st in
      (st', respond 200 (token_data ← r; Ok (get_protected token_data)))
  | ApiDataGet =>
      let '(st', r) :=
        scope_gate get_signing_key_from_jwt jwt_decode (py "read") request st in
      (st', respond 200 (token_data ← r; Ok (get_data token_data)))
  | ApiDataPost item =>
      let '(st', r) :=
        scope_gate get_signing_key_from_jwt jwt_decode (py "write") request st in
      (st', respond 201 (token_data ← r; Ok (create_data item token_data uuid4)))
  | ApiUserinfo =>
      let '(st', r) := protected_gate get_signing_key_from_jwt jwt_decode request st in
      (st', respond 200 (token_data ← r; Ok (get_userinfo token_data)))
  | HealthLive => (st, respond 200 (Ok health))
  end.
End Endpoints.

(** ** The readiness loop of the test fixtures
    (test_api.py, lines 36-44 and 124-132; test_oauth.py, lines 34-42) *)

(** [for _ in range(max_retries)]: one request per round, [break] on a 200,
    one second of sleep after any other answer or an exception.
    [probe n] is what the n-th request meets: a status, or [None] for an
    exception.  The result counts the requests made and the seconds
    slept. *)
Fixpoint wait_until_ready (probe : nat -> option Z) (attempt max_retries : nat)
  : nat * nat :=
  match max_retries with
  | O => (O, O)
  | Datatypes.S rounds =>
      match probe attempt with
      | Some status_code =>
          if status_code =? 200 then (1%nat, O)
          else let '(requests, sleeps) :=
                 wait_until_ready probe (Datatypes.S attempt) rounds in
               (Datatypes.S requests, Datatypes.S sleeps)
      | None =>
          let '(requests, sleeps) :=
            wait_until_ready probe (Datatypes.S attempt) rounds in
          (Datatypes.S requests, Datatypes.S sleeps)
      end
  end.

(** The header the test clients send (test_api.py, line 162). *)
Definition bearer_header (token : str) : Request :=
  {| authorization := Some (py "Bearer " ++ token) |}.

Module SampleApp.
Definition serve :=
  serve Sample.get_signing_key_from_jwt Sample.jwt_decode.

(** Every request answers 503 but the fourth. *)
Definition probe (n : nat) : option Z :=
  match n with
  | 0%nat => None
  | 3%nat => Some 200
  | _ => Some 503
  end.
End SampleApp.

(** * Properties *)

(** ** Whitespace splitting *)

Lemma nonspace_app (a b : str) : nonspace (a ++ b) ↔ nonspace a ∧ nonspace b.
Proof. exact (Forall_app (λ c, isspace c = false) a b). Qed.

Lemma nonspace_cons (c : N) (a : str) :
  nonspace (c :: a) ↔ isspace c = false ∧ nonspace a.
Proof. exact (Forall_cons (λ c, isspace c = false) c a). Qed.

(** Where a separator [c] can sit in [pre ++ w ++ suf], when no separator
    occurs before it or inside [w]. *)
Lemma separator_position (acc rest w suf : str) (c : N) :
  nonspace acc → nonspace w → isspace c = true →
  ∀ pre, acc ++ c :: rest = pre ++ w ++ suf →
  (∃ x, acc = pre ++ w ++ x ∧ suf = x ++ c :: rest)
  ∨ (∃ p, pre = acc ++ c :: p ∧ rest = p ++ w ++ suf).
Proof.
  intros Hacc Hw Hc. revert w Hw.
  induction acc as [|a acc IH]; intros w Hw pre Heq; simpl in Heq.
  - destruct pre as [|d p]; simpl in Heq.
    + destruct w as [|d w]; simpl in Heq.
      * left. exists []. simpl. by subst.
      * injection Heq as <- _. apply nonspace_cons in Hw as [Hw _]. congruence.
    + injection Heq as <- ->. right. by exists p.
  - apply nonspace_cons in Hacc as [Ha Hacc].
    destruct pre as [|d p]; simpl in Heq.
    + destruct w as [|d w]; simpl in Heq.
      * left. exists (a :: acc). by subst.
      * injection Heq as <- Heq. apply nonspace_cons in Hw as [_ Hw].
        destruct (IH Hacc w Hw [] Heq) as [(x & -> & ->) | (p & Hp & _)].
        -- left. by exists x.
        -- by destruct acc.
    + injection Heq as <- Heq.
      destruct (IH Hacc w Hw p Heq) as [(x & -> & ->) | (q & -> & ->)].
      * left. by exists x.
      * right. by exists q.
Qed.

Lemma ends_with_space_nonspace (pre : str) :
  ends_with_space pre → nonspace pre → pre = [].
Proof.
  intros [-> | (p & c & -> & Hc)] Hns; [done|].
  apply nonspace_app in Hns as [_ Hns]. apply nonspace_cons in Hns as [Hns _].
  congruence.
Qed.

Lemma starts_with_space_nonspace (x rest : str) (c : N) :
  starts_with_space (x ++ c :: rest) → nonspace x → x = [].
Proof.
  intros [Hnil | (d & r & Heq & Hd)] Hns.
  - by destruct x.
  - destruct x as [|e x]; [done|]. simpl in Heq. injection Heq as <- _.
    apply nonspace_cons in Hns as [Hns _]. congruence.
Qed.

Lemma ends_with_space_snoc (p q : str) (c : N) :
  isspace c = true → ends_with_space q → ends_with_space (p ++ c :: q).
Proof.
  intros Hc [-> | (q' & d & -> & Hd)]; right.
  - by exists p, c.
  - exists (p ++ c :: q'), d. by rewrite <- app_assoc.
Qed.

Lemma ends_with_space_tail (p q : str) (c : N) :
  ends_with_space (p ++ c :: q) → ends_with_space q.
Proof.
  intros [Hnil | (r & d & Heq & Hd)].
  - by destruct p.
  - induction q as [|e q' _] using rev_ind.
    + by left.
    + right. exists q', e. split; [done|].
      change (p ++ c :: q' ++ [e]) with (p ++ (c :: q') ++ [e]) in Heq.
      rewrite app_assoc in Heq. apply app_inj_tail in Heq as [_ ->]. done.
Qed.

(** The scope names of [acc ++ c :: rest], for a separator [c] that
    ends the run [acc]. *)
Lemma scope_name_of_separator (acc rest w : str) (c : N) :
  nonspace acc → isspace c = true →
  scope_name_of w (acc ++ c :: rest)
  ↔ (acc ≠ [] ∧ w = acc) ∨ scope_name_of w rest.
Proof.
  intros Hacc Hc. split.
  - intros (Hne & Hw & pre & suf & Heq & Hpre & Hsuf).
    destruct (separator_position _ _ _ _ _ Hacc Hw Hc _ Heq)
      as [(x & Hx & ->) | (p & -> & ->)].
    + left. subst acc. apply nonspace_app in Hacc as [Hp Hacc].
      apply nonspace_app in Hacc as [_ Hxs].
      rewrite (ends_with_space_nonspace _ Hpre Hp).
      rewrite (starts_with_space_nonspace _ _ _ Hsuf Hxs).
      simpl. rewrite app_nil_r. split; [|done]. by destruct w.
    + right. split; [done|]. split; [done|]. exists p, suf.
      split; [done|]. split; [|done]. by eapply ends_with_space_tail.
  - intros [[Hne ->] | (Hne & Hw & pre & suf & -> & Hpre & Hsuf)].
    + split; [done|]. split; [done|]. exists [], (c :: rest).
      split; [done|]. split; [by left|]. right. by exists c, rest.
    + split; [done|]. split; [done|]. exists (acc ++ c :: pre), suf.
      split; [by rewrite <- app_assoc|]. split; [|done].
      by apply ends_with_space_snoc.
Qed.

Lemma scope_name_of_nonspace (acc w : str) :
  nonspace acc → scope_name_of w acc ↔ acc ≠ [] ∧ w = acc.
Proof.
  intros Hacc. split.
  - intros (Hne & Hw & pre & suf & -> & Hpre & Hsuf).
    apply nonspace_app in Hacc as [Hp Hacc]. apply nonspace_app in Hacc as [_ Hs].
    rewrite (ends_with_space_nonspace _ Hpre Hp).
    destruct Hsuf as [-> | (d & r & -> & Hd)].
    + simpl. rewrite app_nil_r. split; [|done]. by destruct w.
    + apply nonspace_cons in Hs as [Hs _]. congruence.
  - intros [Hne ->]. split; [done|]. split; [done|]. exists [], [].
    rewrite app_nil_r. split; [done|]. split; by left.
Qed.

(** [split_from] collects exactly the scope names of the text it has
    scanned and the text still to scan. *)
Lemma split_from_spec (s acc w : str) :
  nonspace acc → w ∈ split_from acc s ↔ scope_name_of w (acc ++ s).
Proof.
  revert acc. induction s as [|c rest IH]; intros acc Hacc; simpl.
  - rewrite app_nil_r, scope_name_of_nonspace by done.
    destruct acc as [|a acc].
    + split; [intros Hin; inversion Hin | by intros [Hne _]].
    + rewrite list_elem_of_singleton. split; [by intros -> | by intros [_ ->]].
  - destruct (isspace c) eqn:Hc.
    + rewrite scope_name_of_separator by done.
      assert (Hnil : nonspace []) by constructor.
      specialize (IH [] Hnil). simpl in IH.
      destruct acc as [|a acc].
      * rewrite IH. split; [by right | by intros [[Hne _] | Hw]].
      * rewrite elem_of_cons, IH.
        split; (intros [Hw | Hw]; [left | by right]); [by subst | apply Hw].
    + rewrite IH.
      * by rewrite <- app_assoc.
      * apply nonspace_app. split; [done|].
        apply nonspace_cons. split; [done | constructor].
Qed.

Lemma split_spec (s w : str) : w ∈ split s ↔ scope_name_of w s.
Proof. unfold split. rewrite split_from_spec; [done | constructor]. Qed.

(** ** The scope check *)

Lemma scope_name_of_empty (w : str) : ¬ scope_name_of w [].
Proof. rewrite <- split_spec. intros Hin. inversion Hin. Qed.

Lemma granted_scopes_string (token_data : gmap str value) (s : str) :
  token_data !! py "scope" = Some (JString s) →
  granted_scopes token_data = Ok (split s).
Proof. unfold granted_scopes. intros ->. by destruct s. Qed.

Lemma granted_scopes_absent (token_data : gmap str value) :
  token_data !! py "scope" = None → granted_scopes token_data = Ok [].
Proof. unfold granted_scopes. by intros ->. Qed.

Lemma granted_scopes_falsy (token_data : gmap str value) (v : value) :
  token_data !! py "scope" = Some v → truthy v = false →
  granted_scopes token_data = Ok [].
Proof. unfold granted_scopes. intros -> Hv. simpl. by rewrite Hv. Qed.

Lemma granted_scopes_not_string (token_data : gmap str value) (v : value) :
  token_data !! py "scope" = Some v → truthy v = true →
  (∀ s, v ≠ JString s) →
  ∃ msg, granted_scopes token_data = Raise (AttributeError msg).
Proof.
  unfold granted_scopes. intros -> Hv Hns. simpl. rewrite Hv.
  destruct v; try (eexists; reflexivity). by destruct (Hns s).
Qed.

Lemma scope_checker_granted (required_scope : str)
    (token_data : gmap str value) (scopes : list str) :
  granted_scopes token_data = Ok scopes → required_scope ∈ scopes →
  scope_checker required_scope token_data = Ok token_data.
Proof.
  unfold scope_checker. intros -> Hin. simpl.
  by rewrite bool_decide_eq_true_2.
Qed.

Lemma scope_checker_denied (required_scope : str)
    (token_data : gmap str value) (scopes : list str) :
  granted_scopes token_data = Ok scopes → required_scope ∉ scopes →
  scope_checker required_scope token_data
  = Raise (insufficient_scope required_scope).
Proof.
  unfold scope_checker. intros -> Hin. simpl.
  by rewrite bool_decide_eq_false_2.
Qed.

Lemma scope_checker_ok_inv (required_scope : str)
    (token_data c : gmap str value) :
  scope_checker required_scope token_data = Ok c →
  c = token_data ∧
  ∃ scopes, granted_scopes token_data = Ok scopes ∧ required_scope ∈ scopes.
Proof.
  unfold scope_checker. destruct (granted_scopes token_data) as [scopes|e];
    simpl; [|done].
  destruct (decide (required_scope ∈ scopes)) as [Hin|Hin].
  - rewrite bool_decide_eq_true_2 by done. simpl. intros [= <-]. eauto.
  - by rewrite bool_decide_eq_false_2.
Qed.

(** C2.  The scope check grants exactly when the required scope is one of
    the names obtained by splitting the claim set's "scope" string on
    whitespace, compared code point by code point; a string scope that
    lacks the name is denied with the 403; an absent or empty "scope"
    grants nothing; "Read Write" does not satisfy "read". *)
Theorem scope_check_exact_membership
    (required_scope : str) (token_data : gmap str value) :
  ((∃ c, scope_checker required_scope token_data = Ok c)
   ↔ ∃ s, token_data !! py "scope" = Some (JString s)
          ∧ scope_name_of required_scope s)
  ∧ (∀ s, token_data !! py "scope" = Some (JString s) →
          ¬ scope_name_of required_scope s →
          scope_checker required_scope token_data
          = Raise (insufficient_scope required_scope))
  ∧ (token_data !! py "scope" = None
     ∨ token_data !! py "scope" = Some (JString (py "")) →
     granted_scopes token_data = Ok []
     ∧ scope_checker required_scope token_data
       = Raise (insufficient_scope required_scope))
  ∧ (token_data !! py "scope" = Some (JString (py "Read Write")) →
     scope_checker (py "read") token_data
     = Raise (insufficient_scope (py "read"))).
Proof.
  split; [split|split; [|split]].
  - intros [c Hc]. apply scope_checker_ok_inv in Hc as (_ & scopes & Hg & Hin).
    destruct (token_data !! py "scope") as [v|] eqn:Hv.
    + destruct (truthy v) eqn:Ht.
      * destruct v;
          try (destruct (granted_scopes_not_string _ _ Hv Ht) as [msg Hm];
               [done | congruence]).
        exists s. split; [done|]. apply split_spec.
        rewrite (granted_scopes_string _ _ Hv) in Hg. by injection Hg as ->.
      * rewrite (granted_scopes_falsy _ _ Hv Ht) in Hg. injection Hg as <-.
        inversion Hin.
    + rewrite (granted_scopes_absent _ Hv) in Hg. injection Hg as <-.
      inversion Hin.
  - intros (s & Hs & Hw). exists token_data.
    eapply scope_checker_granted; [by apply granted_scopes_string|].
    by apply split_spec.
  - intros s Hs Hw. eapply scope_checker_denied;
      [by apply granted_scopes_string|]. by rewrite split_spec.
  - intros Hcase.
    assert (Hg : granted_scopes token_data = Ok []).
    { destruct Hcase as [Hnone | Hempty].
      - by apply granted_scopes_absent.
      - by rewrite (granted_scopes_string _ _ Hempty). }
    split; [done|].
    eapply scope_checker_denied; [done|]. intros Hin. inversion Hin.
  - intros Hs. eapply scope_checker_denied;
      [by apply granted_scopes_string|].
    vm_compute. intros Hin. apply list_elem_of_In in Hin.
    destruct Hin as [Heq | [Heq | []]]; discriminate.
Qed.

(** C10.  When the "scope" value is absent, falsy or a string, the check
    ends in a grant or in the 403; when it is a truthy value of another
    type (a JSON array of names, say), [split] does not exist on it and
    the check ends in an [AttributeError], which is neither. *)
Theorem scope_check_total_on_strings
    (required_scope : str) (token_data : gmap str value) :
  (token_data !! py "scope" = None
   ∨ (∃ v, token_data !! py "scope" = Some v ∧ truthy v = false)
   ∨ (∃ s, token_data !! py "scope" = Some (JString s)) →
   scope_checker required_scope token_data = Ok token_data
   ∨ scope_checker required_scope token_data
     = Raise (insufficient_scope required_scope))
  ∧ (∀ v, token_data !! py "scope" = Some v → truthy v = true →
          (∀ s, v ≠ JString s) →
          (∃ msg, scope_checker required_scope token_data
                  = Raise (AttributeError msg))
          ∧ response_status 200 (scope_checker required_scope token_data) = 500)
  ∧ (∀ names, token_data !! py "scope" = Some (JArray (JString <$> names)) →
          names ≠ [] →
          ∃ msg, scope_checker required_scope token_data
                 = Raise (AttributeError msg)).
Proof.
  split; [|split].
  - intros Hcase.
    assert (∃ scopes, granted_scopes token_data = Ok scopes) as [scopes Hg].
    { destruct Hcase as [Hnone | [(v & Hv & Ht) | (s & Hs)]]; eexists.
      - by apply granted_scopes_absent.
      - by eapply granted_scopes_falsy.
      - by apply granted_scopes_string. }
    destruct (decide (required_scope ∈ scopes)).
    + left. by eapply scope_checker_granted.
    + right. by eapply scope_checker_denied.
  - intros v Hv Ht Hns.
    destruct (granted_scopes_not_string _ _ Hv Ht Hns) as [msg Hm].
    unfold scope_checker. rewrite Hm. simpl. eauto.
  - intros names Hv Hne.
    destruct (granted_scopes_not_string _ (JArray (JString <$> names)) Hv)
      as [msg Hm]; [by destruct names | done |].
    unfold scope_checker. rewrite Hm. simpl. eauto.
Qed.

(** Lines 68-69 yield the granted scopes exactly when the "scope" claim is
    absent, falsy or a string. *)
Lemma granted_scopes_defined (token_data : gmap str value) :
  (∃ scopes, granted_scopes token_data = Ok scopes)
  ↔ token_data !! py "scope" = None
    ∨ (∃ v, token_data !! py "scope" = Some v ∧ truthy v = false)
    ∨ (∃ s, token_data !! py "scope" = Some (JString s)).
Proof.
  split.
  - intros [scopes Hg].
    destruct (token_data !! py "scope") as [v|] eqn:Hv; [|by left].
    right. destruct (truthy v) eqn:Ht; [|left; by exists v].
    right. destruct v;
      try (destruct (granted_scopes_not_string _ _ Hv Ht) as [msg Hm];
           [done | congruence]).
    by exists s.
  - intros [Hnone | [(v & Hv & Ht) | (s & Hs)]]; eexists.
    + by apply granted_scopes_absent.
    + by eapply granted_scopes_falsy.
    + by apply granted_scopes_string.
Qed.

(** ** The bearer extractor *)

Lemma HTTPBearer_missing (request : Request) :
  authorization request = None →
  HTTPBearer request
  = Raise (HTTPExc {| status_code := 403; detail := py "Not authenticated";
                      headers := None |}).
Proof. unfold HTTPBearer, get_authorization_scheme_param. by intros ->. Qed.

Lemma HTTPBearer_wrong_scheme (request : Request) (v : str) :
  authorization request = Some v →
  lower (fst (partition_space v)) ≠ py "bearer" →
  ∃ d, HTTPBearer request
       = Raise (HTTPExc {| status_code := 403; detail := d; headers := None |}).
Proof.
  unfold HTTPBearer, get_authorization_scheme_param. intros -> Hne.
  destruct v as [|c v]; [by eexists|].
  destruct (partition_space (c :: v)) as [sch cr]. simpl in Hne.
  destruct (negb _); [by eexists|].
  rewrite bool_decide_eq_false_2 by done. by eexists.
Qed.

(** ** The gates, over any verification library *)

Section GateFacts.
Context {K S : Type}.
Variable get_signing_key_from_jwt : str → S → S * result (PyJWK K).
Variable jwt_decode :
  str → K → list str → option (list str) → gmap str bool →
  result (gmap str value).

Local Abbreviation try_body :=
  (verify_token_try get_signing_key_from_jwt jwt_decode).
Local Abbreviation verifier :=
  (verify_token get_signing_key_from_jwt jwt_decode).
Local Abbreviation bearer_gate :=
  (protected_gate get_signing_key_from_jwt jwt_decode).
Local Abbreviation endpoint_gate :=
  (scope_gate get_signing_key_from_jwt jwt_decode).

Lemma verify_token_ok (creds : HTTPAuthorizationCredentials) (st st' : S)
    (decoded : gmap str value) :
  try_body creds st = (st', Ok decoded) →
  verifier creds st = (st', Ok decoded).
Proof. unfold verify_token. by intros ->. Qed.

Lemma verify_token_raise (creds : HTTPAuthorizationCredentials) (st st' : S)
    (e : exception) :
  try_body creds st = (st', Raise e) →
  ∃ d, verifier creds st = (st', Raise (unauthorized d)).
Proof.
  unfold verify_token. intros ->.
  destruct (isinstance_InvalidTokenError e); by eexists.
Qed.

Lemma verify_token_cases (creds : HTTPAuthorizationCredentials) (st : S) :
  (∃ decoded, snd (verifier creds st) = Ok decoded
              ∧ snd (try_body creds st) = Ok decoded)
  ∨ (∃ d e, snd (verifier creds st) = Raise (unauthorized d)
            ∧ snd (try_body creds st) = Raise e).
Proof.
  destruct (try_body creds st) as [st' [decoded|e]] eqn:Htry.
  - left. exists decoded. by rewrite (verify_token_ok _ _ _ _ Htry).
  - right. destruct (verify_token_raise _ _ _ _ Htry) as [d Hd].
    exists d, e. by rewrite Hd.
Qed.

(** C3, as the code has it.  A request to a scope-protected endpoint
    without bearer token (no [Authorization] header, or a scheme other
    than [Bearer]) is rejected with status 403, by the extractor: the
    key client is left as it was, and neither the verifier nor the scope
    check takes part. *)
Theorem no_bearer_token_is_403 (required_scope : str) (request : Request)
    (st : S) :
  authorization request = None
  ∨ (∃ v, authorization request = Some v
          ∧ lower (fst (partition_space v)) ≠ py "bearer") →
  ∃ h, HTTPBearer request = Raise (HTTPExc h)
       ∧ endpoint_gate required_scope request st = (st, Raise (HTTPExc h))
       ∧ status_code h = 403
       ∧ response_status 200 (snd (endpoint_gate required_scope request st)) = 403.
Proof.
  intros Hcase.
  assert (∃ d, HTTPBearer request
               = Raise (HTTPExc {| status_code := 403; detail := d;
                                   headers := None |})) as [d Hd].
  { destruct Hcase as [Hnone | (v & Hv & Hne)].
    - eexists. by apply HTTPBearer_missing.
    - by eapply HTTPBearer_wrong_scheme. }
  eexists. split; [exact Hd|].
  unfold scope_gate, protected_gate. rewrite Hd.
  by simpl.
Qed.

(** C4.  Whatever the body of the [try] raises (each error of the
    taxonomy, and any other exception) the verifier turns into an
    [HTTPException] with status 401 and the challenge
    [WWW-Authenticate: Bearer]; the gate of a scope-protected endpoint
    passes it on as the response, and nothing else leaves the
    verifier. *)
Theorem verification_failure_is_401
    (creds : HTTPAuthorizationCredentials) (st : S) :
  (∀ st' e, try_body creds st = (st', Raise e) →
     ∃ d, verifier creds st = (st', Raise (unauthorized d))
          ∧ ∀ required_scope request,
              HTTPBearer request = Ok creds →
              endpoint_gate required_scope request st
              = (st', Raise (unauthorized d))
              ∧ response_status 200
                  (snd (endpoint_gate required_scope request st)) = 401)
  ∧ (∀ e, snd (verifier creds st) = Raise e →
       ∃ d, e = unauthorized d).
Proof.
  split.
  - intros st' e Htry.
    destruct (verify_token_raise _ _ _ _ Htry) as [d Hd].
    exists d. split; [done|]. intros required_scope request Hreq.
    unfold scope_gate, protected_gate.
    rewrite Hreq, Hd. by simpl.
  - intros e He.
    destruct (verify_token_cases creds st)
      as [(decoded & Hok & _) | (d & e' & Hr & _)]; [congruence|].
    exists d. congruence.
Qed.

(** C5, as the code has it.  When the verifier accepts the token, the
    granted scopes of lines 68-69 are defined (the "scope" claim is absent,
    falsy or a string, see [granted_scopes_defined]) and the required scope
    is not among them, the gate rejects with status 403 and the detail
    "Insufficient scope. Required: " followed by the required scope. *)
Theorem insufficient_scope_is_403 (required_scope : str) (request : Request)
    (st st' : S) (token_data : gmap str value) (scopes : list str) :
  bearer_gate request st = (st', Ok token_data) →
  granted_scopes token_data = Ok scopes →
  required_scope ∉ scopes →
  ∃ h, endpoint_gate required_scope request st = (st', Raise (HTTPExc h))
       ∧ status_code h = 403
       ∧ detail h = py "Insufficient scope. Required: " ++ required_scope
       ∧ response_status 200 (snd (endpoint_gate required_scope request st)) = 403.
Proof.
  intros Hgate Hg Hnin. unfold scope_gate. rewrite Hgate.
  simpl. unfold require_scope.
  rewrite (scope_checker_denied _ _ _ Hg Hnin). simpl. eauto.
Qed.

(** C9.  A grant hands the handler the claim set the verifier produced:
    the check returns its argument, the gate returns what the verifier
    returned, and the verifier what the decoding returned. *)
Theorem granted_claims_unchanged (required_scope : str) :
  (∀ token_data c,
     scope_checker required_scope token_data = Ok c → c = token_data)
  ∧ (∀ request st st' c,
       endpoint_gate required_scope request st = (st', Ok c) →
       bearer_gate request st = (st', Ok c))
  ∧ (∀ creds st st' c,
       verifier creds st = (st', Ok c) →
       try_body creds st = (st', Ok c)).
Proof.
  split; [|split].
  - intros token_data c Hc. by apply scope_checker_ok_inv in Hc as [-> _].
  - intros request st st' c. unfold scope_gate.
    destruct (bearer_gate request st) as [st1 [token_data|e]]; simpl.
    + unfold require_scope. intros [= -> Hc].
      by apply scope_checker_ok_inv in Hc as [-> _].
    + intros [= _ ?].
  - intros creds st st' c. unfold verify_token.
    destruct (try_body creds st) as [st1 [decoded|e]]; [done|].
    destruct (isinstance_InvalidTokenError e); intros [= _ ?].
Qed.
End GateFacts.

(** ** The verifier over the library of the design document *)

Section VerifierFacts.
Context {K : Type}.
Variable load : str → option Jws.
Variable verify_signature : str → K → list N → list N → bool.
Variable jwks_document : nat → option (gmap str (PyJWK K)).
Variable now : Z.
Variable audience_matches : option (list str) → gmap str value → bool.
Variable message : VerificationError → str.

Local Abbreviation key_of_token :=
  (get_signing_key_from_jwt load jwks_document message).
Local Abbreviation decode :=
  (jwt_decode load verify_signature now audience_matches message).
Local Abbreviation try_body :=
  (verify_try load verify_signature jwks_document now audience_matches
     message).
Local Abbreviation verifier :=
  (verify load verify_signature jwks_document now audience_matches message).
Local Abbreviation failure := (@raise message (gmap str value)).

(** The arguments of lines 43-45. *)
Local Abbreviation pinned := [py "RS256"].
Local Abbreviation no_aud := ({[ py "verify_aud" := false ]} : gmap str bool).

Lemma try_body_key_failure (creds : HTTPAuthorizationCredentials)
    (st st' : JwksClient K) (e : exception) :
  key_of_token (credentials creds) st = (st', Raise e) →
  try_body creds st = (st', Raise e).
Proof. unfold verify_try, verify_token_try. by intros ->. Qed.

Lemma try_body_key_ok (creds : HTTPAuthorizationCredentials)
    (st st' : JwksClient K) (k : PyJWK K) :
  key_of_token (credentials creds) st = (st', Ok k) →
  try_body creds st
  = (st', decode (credentials creds) (key k) pinned None no_aud).
Proof. unfold verify_try, verify_token_try. by intros ->. Qed.

Lemma verifier_of_try (creds : HTTPAuthorizationCredentials)
    (st : JwksClient K) :
  (∃ c, snd (try_body creds st) = Ok c ∧ snd (verifier creds st) = Ok c)
  ∨ (∃ e d, snd (try_body creds st) = Raise e
            ∧ snd (verifier creds st) = Raise (unauthorized d)).
Proof.
  unfold verify, verify_try.
  destruct (verify_token_cases (get_signing_key_from_jwt load jwks_document message)
              (jwt_decode load verify_signature now audience_matches message)
              creds st) as [(c & Hv & Ht) | (d & e & Hv & Ht)]; eauto 6.
Qed.

Lemma verifier_ok (creds : HTTPAuthorizationCredentials)
    (st st' : JwksClient K) (c : gmap str value) :
  try_body creds st = (st', Ok c) → verifier creds st = (st', Ok c).
Proof. apply verify_token_ok. Qed.

Lemma pinned_only (a : str) : a ∈ pinned ↔ a = py "RS256".
Proof. apply list_elem_of_singleton. Qed.

Lemma decode_other_algorithm (token : str) (jws : Jws) (a : str) (k : K)
    (audience : option (list str)) (options : gmap str bool) :
  load token = Some jws → alg jws = Some a → a ≠ py "RS256" →
  decode token k pinned audience options = failure UnsupportedAlgorithm.
Proof.
  unfold jwt_decode. intros -> -> Ha.
  rewrite bool_decide_eq_false_2; [done|]. by rewrite pinned_only.
Qed.

(** With the pin, the signature primitive is only ever asked about
    RS256. *)
Lemma decode_uses_pinned_only (verify_signature' : str → K → list N → list N → bool)
    (token : str) (k : K) (audience : option (list str))
    (options : gmap str bool) :
  (∀ k i s, verify_signature' (py "RS256") k i s
            = verify_signature (py "RS256") k i s) →
  jwt_decode load verify_signature' now audience_matches message
    token k pinned audience options
  = decode token k pinned audience options.
Proof.
  intros Hsame. unfold jwt_decode.
  destruct (load token) as [jws|]; [|done].
  destruct (alg jws) as [a|]; [|done].
  destruct (decide (a ∈ pinned)) as [Hin|Hin].
  - rewrite bool_decide_eq_true_2 by done. simpl.
    apply pinned_only in Hin as ->. by rewrite Hsame.
  - by rewrite bool_decide_eq_false_2.
Qed.

(** C1, as the code has it.  The algorithm handed to the signature
    check is the constant RS256: what the signature primitive answers
    under any other algorithm name has no influence on the verifier.  A
    token that declares another algorithm is never accepted, and the
    gate answers 401; its failure is [UnsupportedAlgorithm] when the key
    of its [kid] resolves, since the key is resolved (line 38) before the
    decoding that checks the algorithm (line 40). *)
Theorem other_algorithm_never_verifies
    (creds : HTTPAuthorizationCredentials) (st : JwksClient K) :
  (∀ verify_signature',
     (∀ k i s, verify_signature' (py "RS256") k i s
               = verify_signature (py "RS256") k i s) →
     verify load verify_signature' jwks_document now audience_matches
       message creds st
     = verifier creds st)
  ∧ (∀ jws a,
       load (credentials creds) = Some jws → alg jws = Some a →
       a ≠ py "RS256" →
       (∀ c, snd (verifier creds st) ≠ Ok c)
       ∧ (∃ d, snd (verifier creds st) = Raise (unauthorized d))
       ∧ (∀ st' k, key_of_token (credentials creds) st = (st', Ok k) →
            try_body creds st = (st', failure UnsupportedAlgorithm))).
Proof.
  split.
  - intros verify_signature' Hsame. unfold verify, verify_token, verify_token_try.
    destruct (key_of_token (credentials creds) st) as [st' [k|e]]; [|done].
    by rewrite (decode_uses_pinned_only _ _ _ _ _ Hsame).
  - intros jws a Hload Halg Ha.
    assert (Htry : ∃ e, snd (try_body creds st) = Raise e).
    { destruct (key_of_token (credentials creds) st) as [st' [k|e]] eqn:Hk.
      - rewrite (try_body_key_ok _ _ _ _ Hk). simpl.
        rewrite (decode_other_algorithm _ _ _ _ _ _ Hload Halg Ha).
        by eexists.
      - rewrite (try_body_key_failure _ _ _ _ Hk). by eexists. }
    destruct Htry as [e He].
    destruct (verifier_of_try creds st)
      as [(c & Ht & _) | (e' & d & _ & Hv)]; [congruence|].
    split; [|split].
    + intros c. by rewrite Hv.
    + by exists d.
    + intros st' k Hk. rewrite (try_body_key_ok _ _ _ _ Hk).
      by rewrite (decode_other_algorithm _ _ _ _ _ _ Hload Halg Ha).
Qed.



Lemma verifier_rejects (creds : HTTPAuthorizationCredentials)
    (st : JwksClient K) :
  (∀ k, ∃ e, decode (credentials creds) k pinned None no_aud = Raise e) →
  ∃ d, snd (verifier creds st) = Raise (unauthorized d).
Proof.
  intros Hdec.
  assert (Htry : ∃ e, snd (try_body creds st) = Raise e).
  { destruct (key_of_token (credentials creds) st) as [st' [k|e]] eqn:Hk.
    - rewrite (try_body_key_ok _ _ _ _ Hk). apply Hdec.
    - rewrite (try_body_key_failure _ _ _ _ Hk). by eexists. }
  destruct Htry as [e He].
  destruct (verifier_of_try creds st)
    as [(c & Ht & _) | (e' & d & _ & Hv)]; [congruence|].
  by exists d.
Qed.

Lemma no_aud_disabled : enabled no_aud (py "verify_aud") = false.
Proof. unfold enabled. by rewrite lookup_singleton_eq. Qed.

Lemma decode_ignores_audience
    (audience_matches' : option (list str) → gmap str value → bool)
    (token : str) (k : K) (algorithms : list str)
    (audience : option (list str)) :
  jwt_decode load verify_signature now audience_matches' message
    token k algorithms audience no_aud
  = decode token k algorithms audience no_aud.
Proof. unfold jwt_decode. by rewrite no_aud_disabled. Qed.

Lemma decode_accepts (token : str) (jws : Jws) (k : K) :
  load token = Some jws → alg jws = Some (py "RS256") →
  verify_signature (py "RS256") k (signing_input jws) (signature jws) = true →
  check_exp now message (payload jws) = Ok () →
  check_nbf now message (payload jws) = Ok () →
  decode token k pinned None no_aud = Ok (payload jws).
Proof.
  unfold jwt_decode. intros -> -> Hsig -> ->.
  rewrite bool_decide_eq_true_2 by (by apply pinned_only).
  rewrite Hsig, no_aud_disabled. done.
Qed.

(** C7.  The audience is not enforced: the verifier's result does not
    depend on the audience comparison at all, and a token that passes the
    structure, algorithm, key, signature and temporal checks is accepted
    with its payload, whatever that payload holds under "aud". *)
Theorem audience_not_enforced
    (creds : HTTPAuthorizationCredentials) (st : JwksClient K) :
  (∀ audience_matches',
     verify load verify_signature jwks_document now audience_matches'
       message creds st
     = verifier creds st)
  ∧ (∀ jws st' k,
       load (credentials creds) = Some jws →
       alg jws = Some (py "RS256") →
       key_of_token (credentials creds) st = (st', Ok k) →
       verify_signature (py "RS256") (key k)
         (signing_input jws) (signature jws) = true →
       check_exp now message (payload jws) = Ok () →
       check_nbf now message (payload jws) = Ok () →
       verifier creds st = (st', Ok (payload jws))).
Proof.
  split.
  - intros audience_matches'. unfold verify, verify_token, verify_token_try.
    destruct (key_of_token (credentials creds) st) as [st' [k|e]]; [|done].
    by rewrite decode_ignores_audience.
  - intros jws st' k Hload Halg Hk Hsig Hexp Hnbf.
    apply verifier_ok. rewrite (try_body_key_ok _ _ _ _ Hk).
    by rewrite (decode_accepts _ _ _ Hload Halg Hsig Hexp Hnbf).
Qed.

Lemma check_exp_past (claims : gmap str value) (e : Z) :
  claims !! py "exp" = Some (JInt e) → e < now →
  check_exp now message claims = raise message Expired.
Proof.
  unfold check_exp. intros -> He.
  by rewrite (proj2 (Z.leb_le e now)) by lia.
Qed.

Lemma check_nbf_future (claims : gmap str value) (n : Z) :
  claims !! py "nbf" = Some (JInt n) → now < n →
  check_nbf now message claims = raise message NotYetValid.
Proof.
  unfold check_nbf. intros -> Hn.
  by rewrite (proj2 (Z.ltb_lt now n)) by lia.
Qed.

(** A decoding that reaches the temporal checks ends in what they
    say. *)
Lemma decode_temporal (token : str) (jws : Jws) (k : K) :
  load token = Some jws → alg jws = Some (py "RS256") →
  verify_signature (py "RS256") k (signing_input jws) (signature jws) = true →
  decode token k pinned None no_aud
  = (_ ← check_exp now message (payload jws);
     _ ← check_nbf now message (payload jws);
     Ok (payload jws)).
Proof.
  unfold jwt_decode. intros -> -> Hsig.
  rewrite bool_decide_eq_true_2 by (by apply pinned_only).
  rewrite Hsig, no_aud_disabled. done.
Qed.

Lemma decode_temporal_failure (token : str) (jws : Jws) (k : K) :
  load token = Some jws →
  (∃ e, check_exp now message (payload jws) = Raise e)
  ∨ (∃ e, check_nbf now message (payload jws) = Raise e) →
  ∃ e, decode token k pinned None no_aud = Raise e.
Proof.
  unfold jwt_decode. intros -> Hcheck.
  destruct (alg jws) as [a|]; [|by eexists].
  destruct (negb (bool_decide _)); [by eexists|].
  destruct (negb (verify_signature _ _ _ _)); [by eexists|].
  destruct (check_exp now message (payload jws)) as [[]|e1] eqn:Hexp;
    simpl; [|by eexists].
  destruct Hcheck as [[e He] | [e He]]; [done|].
  rewrite He. by eexists.
Qed.

(** C8, as the code has it.  A token whose "exp" lies in the past, or
    whose "nbf" lies in the future, is never accepted, whatever its
    signature, and the gate answers 401.  The structure, algorithm, key
    and signature checks come first: the failure is [Expired]
    (respectively [NotYetValid]) when they pass and the other temporal
    claim is in order. *)
Theorem stale_token_rejected
    (creds : HTTPAuthorizationCredentials) (st : JwksClient K) (jws : Jws) :
  load (credentials creds) = Some jws →
  (∀ e, payload jws !! py "exp" = Some (JInt e) → e < now →
     (∀ c, snd (verifier creds st) ≠ Ok c)
     ∧ (∃ d, snd (verifier creds st) = Raise (unauthorized d))
     ∧ (∀ st' k,
          alg jws = Some (py "RS256") →
          key_of_token (credentials creds) st = (st', Ok k) →
          verify_signature (py "RS256") (key k)
            (signing_input jws) (signature jws) = true →
          check_nbf now message (payload jws) = Ok () →
          try_body creds st = (st', failure Expired)))
  ∧ (∀ n, payload jws !! py "nbf" = Some (JInt n) → now < n →
     (∀ c, snd (verifier creds st) ≠ Ok c)
     ∧ (∃ d, snd (verifier creds st) = Raise (unauthorized d))
     ∧ (∀ st' k,
          alg jws = Some (py "RS256") →
          key_of_token (credentials creds) st = (st', Ok k) →
          verify_signature (py "RS256") (key k)
            (signing_input jws) (signature jws) = true →
          check_exp now message (payload jws) = Ok () →
          try_body creds st = (st', failure NotYetValid))).
Proof.
  intros Hload. split.
  - intros e Hexp He.
    pose proof (check_exp_past _ _ Hexp He) as Hpast.
    assert (∃ d, snd (verifier creds st) = Raise (unauthorized d)) as [d Hd].
    { apply verifier_rejects. intros k.
      apply (decode_temporal_failure _ _ _ Hload). left. by eexists. }
    split; [|split].
    + intros c. by rewrite Hd.
    + by exists d.
    + intros st' k Halg Hk Hsig _. rewrite (try_body_key_ok _ _ _ _ Hk).
      by rewrite (decode_temporal _ _ _ Hload Halg Hsig), Hpast.
  - intros n Hnbf Hn.
    pose proof (check_nbf_future _ _ Hnbf Hn) as Hfuture.
    assert (∃ d, snd (verifier creds st) = Raise (unauthorized d)) as [d Hd].
    { apply verifier_rejects. intros k.
      apply (decode_temporal_failure _ _ _ Hload). right. by eexists. }
    split; [|split].
    + intros c. by rewrite Hd.
    + by exists d.
    + intros st' k Halg Hk Hsig Hexp. rewrite (try_body_key_ok _ _ _ _ Hk).
      by rewrite (decode_temporal _ _ _ Hload Halg Hsig), Hexp, Hfuture.
Qed.
End VerifierFacts.

(** ** Runs of the sample deployment *)

Example split_read_write :
  split (py "  read   write ") = [py "read"; py "write"].
Proof. reflexivity. Qed.

(** Scenario C of the design document: a token with scope "read write"
    reaches the handler of an endpoint that requires "read". *)
Example run_granted :
  snd (Sample.gate (py "read") (Sample.bearer "read-write") Sample.warm)
  = Ok (Sample.claims_of (JString (py "read write"))
          [(py "exp", JInt 2000); (py "aud", JString (py "someone-else"))]).
Proof. vm_compute. reflexivity. Qed.

Lemma scope_check_exact_membership_witness :
  scope_checker (py "read")
    (Sample.claims_of (JString (py "Read Write")) [])
  = Raise (insufficient_scope (py "read")).
Proof.
  apply (proj2 (proj2 (proj2
    (scope_check_exact_membership (py "read")
       (Sample.claims_of (JString (py "Read Write")) []))))).
  vm_compute. reflexivity.
Defined.

Lemma scope_check_total_on_strings_witness :
  ∃ msg, scope_checker (py "read")
           (Sample.claims_of (JArray [JString (py "read")]) [])
         = Raise (AttributeError msg).
Proof.
  apply (proj2 (proj2
    (scope_check_total_on_strings (py "read")
       (Sample.claims_of (JArray [JString (py "read")]) [])))
    [py "read"]).
  - vm_compute. reflexivity.
  - discriminate.
Defined.

(** C3, a request without [Authorization] header to [GET /api/data]: the
    answer is the extractor's 403, not a 401 with a challenge. *)
Lemma no_token_not_401 :
  snd (Sample.gate (py "read") {| authorization := None |} Sample.cold)
  = Raise (HTTPExc {| status_code := 403; detail := py "Not authenticated";
                      headers := None |})
  ∧ ¬ ∃ h, snd (Sample.gate (py "read") {| authorization := None |} Sample.cold)
           = Raise (HTTPExc h)
           ∧ status_code h = 401 ∧ headers h = bearer_challenge.
Proof.
  split; [reflexivity|].
  intros (h & Hh & Hstatus & _). injection Hh as <-. discriminate.
Qed.

Lemma no_bearer_token_is_403_witness :
  ∃ h, HTTPBearer {| authorization := Some (py "Basic dXNlcjpwdw==") |}
       = Raise (HTTPExc h)
       ∧ Sample.gate (py "read")
           {| authorization := Some (py "Basic dXNlcjpwdw==") |} Sample.cold
         = (Sample.cold, Raise (HTTPExc h))
       ∧ status_code h = 403
       ∧ response_status 200
           (snd (Sample.gate (py "read")
                   {| authorization := Some (py "Basic dXNlcjpwdw==") |}
                   Sample.cold)) = 403.
Proof.
  apply (no_bearer_token_is_403 Sample.get_signing_key_from_jwt
           Sample.jwt_decode (py "read")
           {| authorization := Some (py "Basic dXNlcjpwdw==") |} Sample.cold).
  right. eexists. split; [reflexivity|]. vm_compute. discriminate.
Defined.

Lemma verification_failure_is_401_witness :
  ∃ d, Sample.verify (Sample.creds "expired") Sample.warm
       = (Sample.warm, Raise (unauthorized d)).
Proof.
  destruct (proj1 (verification_failure_is_401 Sample.get_signing_key_from_jwt
                     Sample.jwt_decode (Sample.creds "expired") Sample.warm)
              Sample.warm
              (VerificationExc Expired (Sample.message Expired)))
    as [d [Hd _]].
  - vm_compute. reflexivity.
  - exists d. exact Hd.
Defined.

Lemma insufficient_scope_is_403_witness :
  ∃ h, Sample.gate (py "read") (Sample.bearer "write-only") Sample.warm
       = (Sample.warm, Raise (HTTPExc h))
       ∧ status_code h = 403
       ∧ detail h = py "Insufficient scope. Required: " ++ py "read"
       ∧ response_status 200
           (snd (Sample.gate (py "read") (Sample.bearer "write-only")
                   Sample.warm)) = 403.
Proof.
  apply (insufficient_scope_is_403 Sample.get_signing_key_from_jwt
           Sample.jwt_decode (py "read") (Sample.bearer "write-only")
           Sample.warm Sample.warm
           (Sample.claims_of (JString (py "write")) []) [py "write"]).
  - vm_compute. reflexivity.
  - reflexivity.
  - vm_compute. intros Hin. apply list_elem_of_In in Hin.
    destruct Hin as [Heq | []]. discriminate.
Defined.

(** C5, a verified token whose "scope" claim is the JSON array ["read"],
    on a route that requires "write": the token lacks the scope, and the
    check ends in the [AttributeError] of line 69, a 500, not in the
    403. *)
Lemma array_scope_is_not_403 :
  protected_gate Sample.get_signing_key_from_jwt Sample.jwt_decode
    (Sample.bearer "scope-array") Sample.warm
  = (Sample.warm, Ok (Sample.claims_of (JArray [JString (py "read")]) []))
  ∧ Sample.claims_of (JArray [JString (py "read")]) [] !! py "scope"
    = Some (JArray [JString (py "read")])
  ∧ snd (Sample.gate (py "write") (Sample.bearer "scope-array") Sample.warm)
    = Raise (AttributeError (py "'list' object has no attribute 'split'"))
  ∧ response_status 200
      (snd (Sample.gate (py "write") (Sample.bearer "scope-array") Sample.warm))
    = 500
  ∧ ¬ ∃ h, snd (Sample.gate (py "write") (Sample.bearer "scope-array")
                  Sample.warm) = Raise (HTTPExc h)
           ∧ status_code h = 403.
Proof.
  assert (Hrun : snd (Sample.gate (py "write") (Sample.bearer "scope-array")
                        Sample.warm)
                 = Raise (AttributeError
                            (py "'list' object has no attribute 'split'"))).
  { vm_compute. reflexivity. }
  split; [vm_compute; reflexivity|]. split; [vm_compute; reflexivity|].
  split; [exact Hrun|]. split; [by rewrite Hrun|].
  intros (h & Hh & _). rewrite Hrun in Hh. discriminate.
Qed.

Lemma granted_claims_unchanged_witness :
  protected_gate Sample.get_signing_key_from_jwt Sample.jwt_decode
    (Sample.bearer "read-write") Sample.warm
  = (Sample.warm,
     Ok (Sample.claims_of (JString (py "read write"))
           [(py "exp", JInt 2000); (py "aud", JString (py "someone-else"))])).
Proof.
  apply (proj1 (proj2 (granted_claims_unchanged
                         Sample.get_signing_key_from_jwt Sample.jwt_decode
                         (py "read")))).
  vm_compute. reflexivity.
Defined.

(** C1, a token that declares HS256 under a key identifier the
    authorization server does not publish: the key resolution of line 38
    fails first, with [UnknownKey]. *)
Lemma other_algorithm_unknown_key :
  (∃ jws, Sample.load (py "hs256-unknown-kid") = Some jws
          ∧ alg jws = Some (py "HS256") ∧ py "HS256" ≠ py "RS256")
  ∧ snd (Sample.verify_try (Sample.creds "hs256-unknown-kid") Sample.warm)
    = Raise (VerificationExc UnknownKey (Sample.message UnknownKey))
  ∧ ¬ ∃ msg,
        snd (Sample.verify_try (Sample.creds "hs256-unknown-kid") Sample.warm)
        = Raise (VerificationExc UnsupportedAlgorithm msg).
Proof.
  split; [|split].
  - eexists. split; [reflexivity|]. split; [reflexivity | discriminate].
  - vm_compute. reflexivity.
  - intros [msg Hmsg]. vm_compute in Hmsg. discriminate.
Qed.

Lemma other_algorithm_never_verifies_witness :
  Sample.verify_try (Sample.creds "hs256") Sample.warm
  = (Sample.warm,
     Raise (VerificationExc UnsupportedAlgorithm
              (Sample.message UnsupportedAlgorithm))).
Proof.
  destruct (proj2 (other_algorithm_never_verifies Sample.load
                     Sample.verify_signature Sample.jwks_document Sample.now
                     Sample.audience_matches Sample.message
                     (Sample.creds "hs256") Sample.warm)
              (Sample.jws_of "HS256" "k1"
                 (Sample.claims_of (JString (py "read")) []) 1)
              (py "HS256"))
    as (_ & _ & Hkey).
  - vm_compute. reflexivity.
  - reflexivity.
  - discriminate.
  - apply (Hkey Sample.warm Sample.k1). vm_compute. reflexivity.
Defined.


Lemma audience_not_enforced_witness :
  Sample.verify (Sample.creds "read-write") Sample.warm
  = (Sample.warm,
     Ok (Sample.claims_of (JString (py "read write"))
           [(py "exp", JInt 2000); (py "aud", JString (py "someone-else"))])).
Proof.
  apply (proj2 (audience_not_enforced Sample.load Sample.verify_signature
                  Sample.jwks_document Sample.now Sample.audience_matches
                  Sample.message (Sample.creds "read-write") Sample.warm)
           (Sample.jws_of "RS256" "k1"
              (Sample.claims_of (JString (py "read write"))
                 [(py "exp", JInt 2000);
                  (py "aud", JString (py "someone-else"))]) 1)
           Sample.warm Sample.k1).
  all: vm_compute; reflexivity.
Defined.

(** C8, a token whose "exp" lies in the past and whose signature does not
    verify: the failure is [BadSignature], since the signature is checked
    before the temporal claims. *)
Lemma expired_forged_is_bad_signature :
  (∃ jws, Sample.load (py "expired-forged") = Some jws
          ∧ payload jws !! py "exp" = Some (JInt 500) ∧ 500 < Sample.now)
  ∧ snd (Sample.verify_try (Sample.creds "expired-forged") Sample.warm)
    = Raise (VerificationExc BadSignature (Sample.message BadSignature))
  ∧ ¬ ∃ msg,
        snd (Sample.verify_try (Sample.creds "expired-forged") Sample.warm)
        = Raise (VerificationExc Expired msg).
Proof.
  split; [|split].
  - eexists. split; [reflexivity|]. split; [vm_compute; reflexivity | reflexivity].
  - vm_compute. reflexivity.
  - intros [msg Hmsg]. vm_compute in Hmsg. discriminate.
Qed.

Lemma stale_token_rejected_witness :
  Sample.verify_try (Sample.creds "expired") Sample.warm
  = (Sample.warm, Raise (VerificationExc Expired (Sample.message Expired))).
Proof.
  destruct (proj1 (stale_token_rejected Sample.load Sample.verify_signature
                     Sample.jwks_document Sample.now Sample.audience_matches
                     Sample.message (Sample.creds "expired") Sample.warm
                     (Sample.jws_of "RS256" "k1"
                        (Sample.claims_of (JString (py "read"))
                           [(py "exp", JInt 500)]) 1)
                     eq_refl)
              500)
    as (_ & _ & Hexpired).
  - vm_compute. reflexivity.
  - reflexivity.
  - apply (Hexpired Sample.warm Sample.k1); vm_compute; reflexivity.
Defined.

(** * Further properties of the sample *)

(** ** More on the scope check *)

Lemma split_from_separator (s t acc : str) (c : N) :
  isspace c = true →
  split_from acc (s ++ c :: t) = split_from acc s ++ split t.
Proof.
  intros Hc. revert acc. induction s as [|d s IH]; intros acc; simpl.
  - rewrite Hc. by destruct acc.
  - destruct (isspace d); [destruct acc|]; simpl; by rewrite IH.
Qed.

Lemma granted_scopes_ok_inv (token_data : gmap str value) (scopes : list str) :
  granted_scopes token_data = Ok scopes →
  scopes = []
  ∨ ∃ s, token_data !! py "scope" = Some (JString s) ∧ scopes = split s.
Proof.
  intros Hg. destruct (token_data !! py "scope") as [v|] eqn:Hv.
  - destruct (truthy v) eqn:Ht.
    + destruct v;
        try (destruct (granted_scopes_not_string _ _ Hv Ht) as [msg Hm];
             [done | congruence]).
      right. exists s. split; [done|].
      rewrite (granted_scopes_string _ _ Hv) in Hg. by injection Hg as <-.
    + left. rewrite (granted_scopes_falsy _ _ Hv Ht) in Hg. by injection Hg as <-.
  - left. rewrite (granted_scopes_absent _ Hv) in Hg. by injection Hg as <-.
Qed.

Lemma scope_checker_ok_string (required_scope : str)
    (token_data c : gmap str value) :
  scope_checker required_scope token_data = Ok c →
  ∃ s, token_data !! py "scope" = Some (JString s)
       ∧ scope_name_of required_scope s.
Proof.
  intros Hc. apply scope_checker_ok_inv in Hc as (_ & scopes & Hg & Hin).
  apply granted_scopes_ok_inv in Hg as [-> | (s & Hs & ->)].
  - inversion Hin.
  - exists s. split; [done|]. by apply split_spec.
Qed.

(** X1.  Splitting distributes over a separating space, so access is
    monotone in the scope string: a token that is granted a scope keeps
    the grant when further names are appended to, or put in front of, its
    "scope" claim. *)
Theorem granting_is_monotone (required_scope : str)
    (token_data : gmap str value) (s t : str) :
  split (s ++ py " " ++ t) = split s ++ split t
  ∧ (token_data !! py "scope" = Some (JString s) →
     scope_checker required_scope token_data = Ok token_data →
     ∀ wider, wider = s ++ py " " ++ t ∨ wider = t ++ py " " ++ s →
       scope_checker required_scope
         (<[ py "scope" := JString wider ]> token_data)
       = Ok (<[ py "scope" := JString wider ]> token_data)).
Proof.
  assert (Hsplit : ∀ a b, split (a ++ py " " ++ b) = split a ++ split b).
  { intros a b. unfold split. by apply split_from_separator. }
  split; [apply Hsplit|].
  intros Hs Hok wider Hwider.
  apply scope_checker_ok_string in Hok as (s' & Hs' & Hname).
  rewrite Hs in Hs'. injection Hs' as <-. apply split_spec in Hname.
  eapply scope_checker_granted.
  - apply granted_scopes_string. apply lookup_insert_eq.
  - destruct Hwider as [-> | ->]; rewrite Hsplit, elem_of_app; [by left | by right].
Qed.

(** X2.  A requirement that is empty, or that contains whitespace, can
    never be met: whatever the claim set, the check does not grant. *)
Theorem blank_requirement_never_granted (required_scope : str)
    (token_data : gmap str value) :
  required_scope = [] ∨ (∃ c, c ∈ required_scope ∧ isspace c = true) →
  ∀ c, scope_checker required_scope token_data ≠ Ok c.
Proof.
  intros Hbad c Hc.
  apply scope_checker_ok_string in Hc as (s & _ & Hne & Hns & _).
  destruct Hbad as [-> | (d & Hd & Hspace)]; [done|].
  unfold nonspace in Hns. rewrite Forall_forall in Hns.
  specialize (Hns d Hd). congruence.
Qed.

(** X3.  A grant implies that the required scope occurs in the "scope"
    string (what test_oauth.py, line 172, asserts), but occurring is not
    enough: a single name that extends the required one, in front or
    behind, is denied. *)
Theorem no_partial_scope_match (required_scope : str)
    (token_data : gmap str value) :
  (∀ c, scope_checker required_scope token_data = Ok c →
     ∃ s pre suf, token_data !! py "scope" = Some (JString s)
                  ∧ s = pre ++ required_scope ++ suf)
  ∧ (∀ pre suf,
       token_data !! py "scope" = Some (JString (pre ++ required_scope ++ suf)) →
       nonspace (pre ++ required_scope ++ suf) →
       pre ≠ [] ∨ suf ≠ [] →
       scope_checker required_scope token_data
       = Raise (insufficient_scope required_scope)).
Proof.
  split.
  - intros c Hc.
    apply scope_checker_ok_string in Hc as (s & Hs & _ & _ & pre & suf & -> & _).
    by exists (pre ++ required_scope ++ suf), pre, suf.
  - intros pre suf Hs Hns Hext.
    eapply scope_checker_denied; [by apply granted_scopes_string|].
    rewrite split_spec, (scope_name_of_nonspace _ _ Hns).
    intros [_ Heq].
    assert (Hlen : length required_scope
                   = length (pre ++ required_scope ++ suf)) by (by rewrite <- Heq).
    rewrite !length_app in Hlen.
    destruct Hext as [Hp | Hq]; [destruct pre | destruct suf];
      simpl in *; try done; lia.
Qed.

(** X4.  Only the "scope" claim takes part in the decision: two claim sets
    with the same "scope" entry are granted, denied or failed alike. *)
Theorem only_scope_claim_matters (required_scope : str)
    (token_data token_data' : gmap str value) :
  token_data !! py "scope" = token_data' !! py "scope" →
  (scope_checker required_scope token_data = Ok token_data
   ↔ scope_checker required_scope token_data' = Ok token_data')
  ∧ (∀ e, scope_checker required_scope token_data = Raise e
          ↔ scope_checker required_scope token_data' = Raise e).
Proof.
  intros Hsame.
  assert (Hg : granted_scopes token_data = granted_scopes token_data').
  { unfold granted_scopes. by rewrite Hsame. }
  unfold scope_checker. rewrite Hg.
  destruct (granted_scopes token_data') as [scopes|e0]; simpl;
    [destruct (negb (bool_decide (required_scope ∈ scopes)))|];
    (split; [split | intros e; split]); intros Heq; done || congruence.
Qed.

(** ** The routes *)

Lemma HTTPBearer_cases (request : Request) :
  (∃ creds, HTTPBearer request = Ok creds)
  ∨ (∃ d, HTTPBearer request
          = Raise (HTTPExc {| status_code := 403; detail := d; headers := None |})).
Proof.
  unfold HTTPBearer.
  destruct (get_authorization_scheme_param (authorization request)) as [sch cr].
  destruct (negb _); [right; by eexists|].
  destruct (negb _); [right; by eexists|]. left. by eexists.
Qed.

Section EndpointFacts.
Context {K S : Type}.
Variable get_signing_key_from_jwt : str → S → S * result (PyJWK K).
Variable jwt_decode :
  str → K → list str → option (list str) → gmap str bool →
  result (gmap str value).

Local Abbreviation try_body :=
  (verify_token_try get_signing_key_from_jwt jwt_decode).
Local Abbreviation verifier :=
  (verify_token get_signing_key_from_jwt jwt_decode).
Local Abbreviation bearer_gate :=
  (protected_gate get_signing_key_from_jwt jwt_decode).
Local Abbreviation endpoint_gate :=
  (scope_gate get_signing_key_from_jwt jwt_decode).
Local Abbreviation app := (serve get_signing_key_from_jwt jwt_decode).

(** The two prefixes of lines 52 and 58. *)
Lemma verifier_raise_detail (creds : HTTPAuthorizationCredentials)
    (st st' : S) (e : exception) :
  try_body creds st = (st', Raise e) →
  ∃ prefix,
    (prefix = py "Invalid token: "
     ∨ prefix = py "Could not validate credentials: ")
    ∧ verifier creds st = (st', Raise (unauthorized (prefix ++ exc_str e))).
Proof.
  unfold verify_token. intros ->.
  destruct (isinstance_InvalidTokenError e);
    [exists (py "Invalid token: ")
    | exists (py "Could not validate credentials: ")]; split; auto.
Qed.

Lemma bearer_gate_verified (request : Request) (creds : HTTPAuthorizationCredentials)
    (st st' : S) (claims : gmap str value) :
  HTTPBearer request = Ok creds → try_body creds st = (st', Ok claims) →
  bearer_gate request st = (st', Ok claims).
Proof.
  intros Hb Ht. unfold protected_gate. rewrite Hb.
  by apply verify_token_ok.
Qed.

(** What the token gate can end in. *)
Lemma bearer_gate_cases (request : Request) (st : S) :
  (∃ creds claims, HTTPBearer request = Ok creds
      ∧ try_body creds st = (fst (bearer_gate request st), Ok claims)
      ∧ snd (bearer_gate request st) = Ok claims)
  ∨ (∃ h, snd (bearer_gate request st) = Raise (HTTPExc h)
          ∧ (status_code h = 401 ∨ status_code h = 403)).
Proof.
  unfold protected_gate.
  destruct (HTTPBearer_cases request) as [[creds Hb] | [d Hb]]; rewrite Hb.
  - destruct (try_body creds st) as [st' [claims|e]] eqn:Ht.
    + left. exists creds, claims.
      rewrite (verify_token_ok _ _ _ _ _ _ Ht). by simpl.
    + right. destruct (verify_token_raise _ _ _ _ _ _ Ht) as [d Hd].
      rewrite Hd. eexists. split; [done|]. by left.
  - right. eexists. split; [done|]. by right.
Qed.

Lemma scope_checker_cases (required_scope : str) (token_data : gmap str value) :
  (scope_checker required_scope token_data = Ok token_data
   ∧ ∃ s, token_data !! py "scope" = Some (JString s)
          ∧ scope_name_of required_scope s)
  ∨ scope_checker required_scope token_data
    = Raise (insufficient_scope required_scope)
  ∨ ∃ msg, scope_checker required_scope token_data = Raise (AttributeError msg).
Proof.
  destruct (scope_checker required_scope token_data) as [c|e] eqn:Hc.
  - left. pose proof (scope_checker_ok_string _ _ _ Hc) as Hs.
    apply scope_checker_ok_inv in Hc as [-> _]. by split.
  - right. unfold scope_checker in Hc.
    destruct (granted_scopes token_data) as [scopes|e'] eqn:Hg; simpl in Hc.
    + destruct (negb _); [|done]. left. by rewrite <- Hc.
    + right. injection Hc as <-. unfold granted_scopes in Hg.
      destruct (truthy _); [|done].
      destruct (default _ _); simpl in Hg; try done; injection Hg as <-;
        by eexists.
Qed.

(** What the gate of a scoped route can end in. *)
Lemma endpoint_gate_cases (required_scope : str) (request : Request) (st : S) :
  (∃ creds claims s,
      HTTPBearer request = Ok creds
      ∧ try_body creds st
        = (fst (endpoint_gate required_scope request st), Ok claims)
      ∧ snd (endpoint_gate required_scope request st) = Ok claims
      ∧ claims !! py "scope" = Some (JString s)
      ∧ scope_name_of required_scope s)
  ∨ (∃ h, snd (endpoint_gate required_scope request st) = Raise (HTTPExc h)
          ∧ (status_code h = 401 ∨ status_code h = 403))
  ∨ (∃ msg, snd (endpoint_gate required_scope request st)
            = Raise (AttributeError msg)).
Proof.
  unfold scope_gate.
  destruct (bearer_gate_cases request st)
    as [(creds & claims & Hb & Ht & Hok) | (h & Hh & Hcode)];
    destruct (bearer_gate request st) as [st' r]; simpl in *; subst r; simpl.
  - unfold require_scope.
    destruct (scope_checker_cases required_scope claims)
      as [[Hc (s & Hs & Hname)] | [Hc | [msg Hc]]]; rewrite Hc.
    + left. by exists creds, claims, s.
    + right. left. eexists. split; [done|]. by right.
    + right. right. by exists msg.
  - right. left. by exists h.
Qed.

(** X5.  A guarded route answers with its success status only if the
    request carried a bearer token, the verifier accepted it, and, on the
    routes that require a scope, that scope is one of the names of the
    token's "scope" string. *)
Theorem handler_runs_only_when_authorised (e : endpoint) (request : Request)
    (uuid4 : str) (st : S) :
  dependency_of e ≠ Open →
  resp_status (snd (app e request uuid4 st)) = success_status e →
  ∃ creds claims,
    HTTPBearer request = Ok creds
    ∧ try_body creds st = (fst (app e request uuid4 st), Ok claims)
    ∧ ∀ required_scope, dependency_of e = Scoped required_scope →
        ∃ s, claims !! py "scope" = Some (JString s)
             ∧ scope_name_of required_scope s.
Proof.
  intros Hguarded Hstatus.
  assert (Hauth : ∀ (handler : gmap str value → value),
            resp_status
              (respond (success_status e)
                 (token_data ← snd (bearer_gate request st);
                  Ok (handler token_data))) = success_status e →
            ∃ creds claims,
              HTTPBearer request = Ok creds
              ∧ try_body creds st = (fst (bearer_gate request st), Ok claims)).
  { intros handler Hresp.
    destruct (bearer_gate_cases request st)
      as [(creds & claims & Hb & Ht & _) | (h & Hh & Hcode)]; [by eauto|].
    exfalso. rewrite Hh in Hresp. simpl in Hresp.
    destruct e, Hcode; simpl in Hresp; congruence. }
  assert (Hscoped : ∀ required_scope (handler : gmap str value → value),
            resp_status
              (respond (success_status e)
                 (token_data ← snd (endpoint_gate required_scope request st);
                  Ok (handler token_data))) = success_status e →
            ∃ creds claims,
              HTTPBearer request = Ok creds
              ∧ try_body creds st
                = (fst (endpoint_gate required_scope request st), Ok claims)
              ∧ ∃ s, claims !! py "scope" = Some (JString s)
                     ∧ scope_name_of required_scope s).
  { intros required_scope handler Hresp.
    destruct (endpoint_gate_cases required_scope request st)
      as [(creds & claims & s & Hb & Ht & _ & Hs & Hname)
         | [(h & Hh & Hcode) | (msg & Hm)]]; [by eauto 7| |]; exfalso.
    - rewrite Hh in Hresp. simpl in Hresp.
      destruct e, Hcode; simpl in Hresp; congruence.
    - rewrite Hm in Hresp. simpl in Hresp. by destruct e. }
  destruct e; simpl in Hguarded; try done; unfold serve in *.
  - specialize (Hauth get_protected).
    destruct (bearer_gate request st) as [st' r]. simpl in *.
    destruct (Hauth Hstatus) as (creds & claims & ? & ?).
    exists creds, claims. by repeat split.
  - specialize (Hscoped (py "read") get_data).
    destruct (endpoint_gate (py "read") request st) as [st' r]. simpl in *.
    destruct (Hscoped Hstatus) as (creds & claims & ? & ? & Hs).
    exists creds, claims. split; [done|]. split; [done|]. by intros rs [= <-].
  - specialize (Hscoped (py "write") (λ td, create_data item td uuid4)).
    destruct (endpoint_gate (py "write") request st) as [st' r]. simpl in *.
    destruct (Hscoped Hstatus) as (creds & claims & ? & ? & Hs).
    exists creds, claims. split; [done|]. split; [done|]. by intros rs [= <-].
  - specialize (Hauth get_userinfo).
    destruct (bearer_gate request st) as [st' r]. simpl in *.
    destruct (Hauth Hstatus) as (creds & claims & ? & ?).
    exists creds, claims. by repeat split.
Qed.

(** X6.  The statuses of the routes whose answer is a fixed value.
    [/api/public] and [/health/live] answer 200 with that value and leave
    the key client as it was, whatever the request carries;
    [GET /api/protected] answers 200, 401 or 403, and never a 500;
    [GET /api/data] answers 200, 401, 403 or 500. *)
Theorem fixed_route_statuses (request : Request) (uuid4 : str) (st : S) :
  app ApiPublic request uuid4 st
  = (st, {| resp_status := 200; resp_body := JSON get_public;
            resp_headers := None |})
  ∧ app HealthLive request uuid4 st
    = (st, {| resp_status := 200; resp_body := JSON health;
              resp_headers := None |})
  ∧ (resp_status (snd (app ApiProtected request uuid4 st)) = 200
     ∨ resp_status (snd (app ApiProtected request uuid4 st)) = 401
     ∨ resp_status (snd (app ApiProtected request uuid4 st)) = 403)
  ∧ (resp_status (snd (app ApiDataGet request uuid4 st)) = 200
     ∨ resp_status (snd (app ApiDataGet request uuid4 st)) = 401
     ∨ resp_status (snd (app ApiDataGet request uuid4 st)) = 403
     ∨ resp_status (snd (app ApiDataGet request uuid4 st)) = 500).
Proof.
  split; [done|]. split; [done|]. split; unfold serve.
  - destruct (bearer_gate_cases request st)
      as [(creds & claims & _ & _ & Hok) | (h & Hh & [Hc | Hc])];
      destruct (bearer_gate request st) as [st' r]; simpl in *; subst r;
      simpl; auto.
  - destruct (endpoint_gate_cases (py "read") request st)
      as [(creds & claims & s & _ & _ & Hok & _)
         | [(h & Hh & [Hc | Hc]) | (msg & Hm)]];
      destruct (endpoint_gate (py "read") request st) as [st' r];
      simpl in *; subst r; simpl; auto.
Qed.

Lemma bearer_gate_rejected (request : Request) (creds : HTTPAuthorizationCredentials)
    (st st' : S) (e : exception) :
  HTTPBearer request = Ok creds → try_body creds st = (st', Raise e) →
  ∃ prefix,
    (prefix = py "Invalid token: "
     ∨ prefix = py "Could not validate credentials: ")
    ∧ bearer_gate request st
      = (st', Raise (unauthorized (prefix ++ exc_str e))).
Proof.
  intros Hb Ht. unfold protected_gate. rewrite Hb.
  by apply verifier_raise_detail.
Qed.

(** X7.  On every guarded route a token that fails verification is
    answered with status 401, the header [WWW-Authenticate: Bearer], and a
    JSON body whose "detail" is one of the two prefixes of lines 52 and 58
    followed by the text of the exception: the cause of the failure is
    disclosed to the client. *)
Theorem guarded_routes_answer_401 (e : endpoint) (request : Request)
    (uuid4 : str) (st st' : S) (creds : HTTPAuthorizationCredentials)
    (exc : exception) :
  dependency_of e ≠ Open →
  HTTPBearer request = Ok creds →
  try_body creds st = (st', Raise exc) →
  ∃ prefix,
    (prefix = py "Invalid token: "
     ∨ prefix = py "Could not validate credentials: ")
    ∧ app e request uuid4 st
      = (st', {| resp_status := 401;
                 resp_body :=
                   JSON (JObject {[ py "detail" := JString (prefix ++ exc_str exc) ]});
                 resp_headers :=
                   Some {[ py "WWW-Authenticate" := py "Bearer" ]} |}).
Proof.
  intros Hguarded Hb Ht.
  destruct (bearer_gate_rejected _ _ _ _ _ Hb Ht) as (prefix & Hprefix & Hgate).
  exists prefix. split; [done|].
  destruct e; simpl in Hguarded; try done; unfold serve, scope_gate;
    by rewrite Hgate.
Qed.

(** X8.  With a verified token whose granted scopes are defined, the two
    [/api/data] routes decide by membership alone: the handler's value
    with the route's status when the required scope is granted, and
    otherwise status 403 with the detail that names the required scope
    and no challenge header. *)
Theorem data_routes_decide_by_scope (e : endpoint) (required_scope : str)
    (request : Request) (uuid4 : str) (st st' : S)
    (creds : HTTPAuthorizationCredentials) (claims : gmap str value)
    (scopes : list str) :
  dependency_of e = Scoped required_scope →
  HTTPBearer request = Ok creds →
  try_body creds st = (st', Ok claims) →
  granted_scopes claims = Ok scopes →
  (required_scope ∈ scopes →
   app e request uuid4 st
   = (st', {| resp_status := success_status e;
              resp_body := JSON (match e with
                                 | ApiDataPost item => create_data item claims uuid4
                                 | _ => get_data claims
                                 end);
              resp_headers := None |}))
  ∧ (required_scope ∉ scopes →
     app e request uuid4 st
     = (st', {| resp_status := 403;
                resp_body :=
                  JSON (JObject {[ py "detail" :=
                          JString (py "Insufficient scope. Required: "
                                   ++ required_scope) ]});
                resp_headers := None |})).
Proof.
  intros Hdep Hb Ht Hg.
  pose proof (bearer_gate_verified _ _ _ _ _ Hb Ht) as Hgate.
  split; intros Hin.
  - destruct e; simpl in Hdep; try done; injection Hdep as <-;
      unfold serve, scope_gate; rewrite Hgate; simpl; unfold require_scope;
      by rewrite (scope_checker_granted _ _ _ Hg Hin).
  - destruct e; simpl in Hdep; try done; injection Hdep as <-;
      unfold serve, scope_gate; rewrite Hgate; simpl; unfold require_scope;
      by rewrite (scope_checker_denied _ _ _ Hg Hin).
Qed.

(** X9.  A verified token whose "scope" claim is a truthy value that is
    not a string (a JSON array of names, say) is served on the routes that
    only need a token, and makes both [/api/data] routes answer 500
    "Internal Server Error". *)
Theorem non_string_scope_breaks_data_routes (request : Request) (uuid4 : str)
    (st st' : S) (creds : HTTPAuthorizationCredentials)
    (claims : gmap str value) (v : value) :
  HTTPBearer request = Ok creds →
  try_body creds st = (st', Ok claims) →
  claims !! py "scope" = Some v → truthy v = true → (∀ s, v ≠ JString s) →
  app ApiProtected request uuid4 st
  = (st', {| resp_status := 200; resp_body := JSON (get_protected claims);
             resp_headers := None |})
  ∧ app ApiUserinfo request uuid4 st
    = (st', {| resp_status := 200; resp_body := JSON (get_userinfo claims);
               resp_headers := None |})
  ∧ ∀ e, e = ApiDataGet ∨ (∃ item, e = ApiDataPost item) →
      app e request uuid4 st
      = (st', {| resp_status := 500;
                 resp_body := PlainText (py "Internal Server Error");
                 resp_headers := None |}).
Proof.
  intros Hb Ht Hv Htruthy Hns.
  pose proof (bearer_gate_verified _ _ _ _ _ Hb Ht) as Hgate.
  split; [|split].
  - unfold serve. by rewrite Hgate.
  - unfold serve. by rewrite Hgate.
  - intros e He.
    destruct (granted_scopes_not_string _ _ Hv Htruthy Hns) as [msg Hm].
    destruct He as [-> | [item ->]]; unfold serve, scope_gate;
      rewrite Hgate; simpl; unfold require_scope, scope_checker;
      by rewrite Hm.
Qed.
End EndpointFacts.

(** ** The bearer header of the test clients *)

Lemma partition_space_app (sch token : str) :
  Forall (λ c, c ≠ 32%N) sch →
  partition_space (sch ++ 32%N :: token) = (sch, token).
Proof.
  induction 1 as [|c sch Hc _ IH]; simpl; [done|].
  rewrite (proj2 (N.eqb_neq c 32)) by done. by rewrite IH.
Qed.

Lemma lower_char_space (c : N) : (32 < lower_char c)%N → c ≠ 32%N.
Proof. intros Hc ->. vm_compute in Hc. discriminate. Qed.

Lemma lower_bearer_no_space (sch : str) :
  lower sch = py "bearer" → sch ≠ [] ∧ Forall (λ c, c ≠ 32%N) sch.
Proof.
  unfold lower. intros Hl. split; [by destruct sch|].
  change (py "bearer") with [98; 101; 97; 114; 101; 114]%N in Hl.
  do 7 (destruct sch as [|? sch]; [try discriminate|]);
    [|discriminate].
  simpl in Hl. injection Hl as H1 H2 H3 H4 H5 H6.
  repeat constructor; apply lower_char_space; lia.
Qed.

Lemma scheme_param_of_header (sch token : str) :
  sch ≠ [] → Forall (λ c, c ≠ 32%N) sch →
  get_authorization_scheme_param (Some (sch ++ 32%N :: token)) = (sch, token)
  ∧ nonempty (sch ++ 32%N :: token) = true.
Proof.
  intros Hne Hns. destruct sch as [|c sch]; [done|]. split; [|done].
  unfold get_authorization_scheme_param.
  change ((c :: sch) ++ 32%N :: token) with (c :: (sch ++ 32%N :: token)).
  cbv iota.
  change (c :: (sch ++ 32%N :: token)) with ((c :: sch) ++ 32%N :: token).
  by apply partition_space_app.
Qed.

Lemma HTTPBearer_of_header (request : Request) (v sch token : str) :
  authorization request = Some v →
  get_authorization_scheme_param (Some v) = (sch, token) →
  nonempty v = true → sch ≠ [] → lower sch = py "bearer" →
  HTTPBearer request
  = if nonempty token then Ok {| scheme := sch; credentials := token |}
    else Raise (HTTPExc {| status_code := 403;
                           detail := py "Not authenticated";
                           headers := None |}).
Proof.
  intros Ha Hp Hv Hne Hl. unfold HTTPBearer. rewrite Ha, Hp. simpl.
  rewrite Hv. destruct sch as [|c sch]; [done|].
  destruct token as [|t token]; [done|]. simpl.
  by rewrite bool_decide_eq_true_2.
Qed.

(** X10.  The header the test clients build, "Bearer " followed by the
    token, gives the verifier that token back, whole, also when it
    contains spaces, and under any capitalisation of the scheme; with an
    empty token the request is rejected with 403 before the verifier. *)
Theorem bearer_header_round_trip (sch token : str) :
  lower sch = py "bearer" →
  (token ≠ [] →
   HTTPBearer {| authorization := Some (sch ++ py " " ++ token) |}
   = Ok {| scheme := sch; credentials := token |})
  ∧ (token ≠ [] →
     HTTPBearer (bearer_header token)
     = Ok {| scheme := py "Bearer"; credentials := token |})
  ∧ HTTPBearer {| authorization := Some (sch ++ py " ") |}
    = Raise (HTTPExc {| status_code := 403; detail := py "Not authenticated";
                        headers := None |}).
Proof.
  intros Hl.
  assert (Hgen : ∀ sch' tok, lower sch' = py "bearer" →
            HTTPBearer {| authorization := Some (sch' ++ py " " ++ tok) |}
            = if nonempty tok then Ok {| scheme := sch'; credentials := tok |}
              else Raise (HTTPExc {| status_code := 403;
                                     detail := py "Not authenticated";
                                     headers := None |})).
  { intros sch' tok Hl'.
    destruct (lower_bearer_no_space _ Hl') as [Hne Hns].
    destruct (scheme_param_of_header sch' tok Hne Hns) as [Hparam Hfull].
    change (py " " ++ tok) with (32%N :: tok).
    by apply (HTTPBearer_of_header _ (sch' ++ 32%N :: tok)). }
  split; [|split].
  - intros Htok. rewrite (Hgen sch token Hl). by destruct token.
  - intros Htok. unfold bearer_header.
    change (py "Bearer " ++ token) with (py "Bearer" ++ py " " ++ token).
    rewrite (Hgen (py "Bearer") token eq_refl). by destruct token.
  - change (sch ++ py " ") with (sch ++ py " " ++ []).
    by rewrite (Hgen sch [] Hl).
Qed.

(** ** The readiness loop *)

Lemma wait_until_ready_miss (probe : nat → option Z) (attempt rounds : nat) :
  probe attempt ≠ Some 200 →
  wait_until_ready probe attempt (Datatypes.S rounds)
  = (Datatypes.S (fst (wait_until_ready probe (Datatypes.S attempt) rounds)),
     Datatypes.S (snd (wait_until_ready probe (Datatypes.S attempt) rounds))).
Proof.
  intros Hmiss. simpl.
  destruct (wait_until_ready probe (Datatypes.S attempt) rounds) as [n s].
  destruct (probe attempt) as [code|]; [|done].
  destruct (Z.eqb_spec code 200) as [-> | _]; done.
Qed.

(** X11.  The fixtures wait for the server with at most [max_retries]
    requests: the loop stops at the first answer 200, having slept one
    second after each earlier request, and when no answer is a 200 it
    ends after [max_retries] requests and as many seconds, without an
    error: the fixture goes on to yield the URL either way. *)
Theorem wait_until_ready_bounded (probe : nat → option Z)
    (attempt max_retries : nat) :
  (fst (wait_until_ready probe attempt max_retries) ≤ max_retries)%nat
  ∧ (∀ i, (i < max_retries)%nat →
       probe (attempt + i)%nat = Some 200 →
       (∀ j, (j < i)%nat → probe (attempt + j)%nat ≠ Some 200) →
       wait_until_ready probe attempt max_retries = (Datatypes.S i, i))
  ∧ ((∀ j, (j < max_retries)%nat → probe (attempt + j)%nat ≠ Some 200) →
     wait_until_ready probe attempt max_retries = (max_retries, max_retries)).
Proof.
  revert attempt. induction max_retries as [|rounds IH]; intros attempt.
  - split; [simpl; lia|]. split; [intros i Hi; lia | done].
  - destruct (IH (Datatypes.S attempt)) as (Hle & Hfirst & Hnone).
    destruct (decide (probe attempt = Some 200)) as [Hhit | Hmiss].
    + split; [|split].
      * simpl. rewrite Hhit. simpl. lia.
      * intros i Hi Hp Hbefore. destruct i as [|i].
        -- simpl. by rewrite Hhit.
        -- destruct (Hbefore O); [lia|]. by rewrite Nat.add_0_r.
      * intros Hall. destruct (Hall O); [lia|]. by rewrite Nat.add_0_r.
    + rewrite (wait_until_ready_miss _ _ _ Hmiss). split; [|split].
      * simpl. lia.
      * intros i Hi Hp Hbefore. destruct i as [|i].
        -- by rewrite Nat.add_0_r in Hp.
        -- rewrite (Hfirst i); [done | lia | |].
           ++ by rewrite Nat.add_succ_comm.
           ++ intros j Hj. rewrite Nat.add_succ_comm. apply Hbefore. lia.
      * intros Hall. rewrite Hnone; [done|].
        intros j Hj. rewrite Nat.add_succ_comm. apply Hall. lia.
Qed.

(** ** Runs of the routes *)

Lemma granting_is_monotone_witness :
  scope_checker (py "read")
    (<[ py "scope" := JString (py "read" ++ py " " ++ py "write") ]>
       (Sample.claims_of (JString (py "read")) []))
  = Ok (<[ py "scope" := JString (py "read" ++ py " " ++ py "write") ]>
          (Sample.claims_of (JString (py "read")) [])).
Proof.
  apply (proj2 (granting_is_monotone (py "read")
                  (Sample.claims_of (JString (py "read")) [])
                  (py "read") (py "write"))).
  - vm_compute. reflexivity.
  - vm_compute. reflexivity.
  - by left.
Defined.

Lemma blank_requirement_never_granted_witness :
  (∃ c, c ∈ py "read write" ∧ isspace c = true)
  ∧ ∀ c, scope_checker (py "read write")
           (Sample.claims_of (JString (py "read write")) []) ≠ Ok c.
Proof.
  assert (Hspace : ∃ c, c ∈ py "read write" ∧ isspace c = true).
  { exists 32%N. split; [|reflexivity].
    apply list_elem_of_In. vm_compute. tauto. }
  split; [exact Hspace|].
  apply (blank_requirement_never_granted (py "read write")
           (Sample.claims_of (JString (py "read write")) [])).
  right. exact Hspace.
Defined.

Lemma no_partial_scope_match_witness :
  scope_checker (py "read")
    (Sample.claims_of (JString (py "" ++ py "read" ++ py "only")) [])
  = Raise (insufficient_scope (py "read")).
Proof.
  apply (proj2 (no_partial_scope_match (py "read")
                  (Sample.claims_of
                     (JString (py "" ++ py "read" ++ py "only")) []))
           (py "") (py "only")).
  - vm_compute. reflexivity.
  - vm_compute. repeat constructor.
  - right. discriminate.
Defined.

Lemma only_scope_claim_matters_witness :
  scope_checker (py "read") (Sample.claims_of (JString (py "read")) [])
  = Ok (Sample.claims_of (JString (py "read")) [])
  ↔ scope_checker (py "read")
      (Sample.claims_of (JString (py "read")) [(py "exp", JInt 500)])
    = Ok (Sample.claims_of (JString (py "read")) [(py "exp", JInt 500)]).
Proof.
  apply (only_scope_claim_matters (py "read")
           (Sample.claims_of (JString (py "read")) [])
           (Sample.claims_of (JString (py "read")) [(py "exp", JInt 500)])).
  vm_compute. reflexivity.
Defined.

Lemma handler_runs_only_when_authorised_witness :
  ∃ creds claims,
    HTTPBearer (Sample.bearer "read-write") = Ok creds
    ∧ Sample.verify_try creds Sample.warm
      = (fst (SampleApp.serve ApiDataGet (Sample.bearer "read-write")
                (py "id-1") Sample.warm), Ok claims)
    ∧ ∀ required_scope, dependency_of ApiDataGet = Scoped required_scope →
        ∃ s, claims !! py "scope" = Some (JString s)
             ∧ scope_name_of required_scope s.
Proof.
  apply (handler_runs_only_when_authorised Sample.get_signing_key_from_jwt
           Sample.jwt_decode ApiDataGet (Sample.bearer "read-write")
           (py "id-1") Sample.warm).
  - discriminate.
  - vm_compute. reflexivity.
Defined.

Lemma guarded_routes_answer_401_witness :
  ∃ prefix,
    (prefix = py "Invalid token: "
     ∨ prefix = py "Could not validate credentials: ")
    ∧ SampleApp.serve ApiUserinfo (Sample.bearer "unknown-kid") (py "id-1")
        Sample.warm
      = ({| cache := Sample.jwks_document 1; fetches := 2 |},
         {| resp_status := 401;
            resp_body :=
              JSON (JObject {[ py "detail" :=
                      JString (prefix ++ Sample.message UnknownKey) ]});
            resp_headers := Some {[ py "WWW-Authenticate" := py "Bearer" ]} |}).
Proof.
  apply (guarded_routes_answer_401 Sample.get_signing_key_from_jwt
           Sample.jwt_decode ApiUserinfo (Sample.bearer "unknown-kid")
           (py "id-1") Sample.warm
           {| cache := Sample.jwks_document 1; fetches := 2 |}
           (Sample.creds "unknown-kid")
           (VerificationExc UnknownKey (Sample.message UnknownKey))).
  - discriminate.
  - vm_compute. reflexivity.
  - vm_compute. reflexivity.
Defined.

Lemma data_routes_decide_by_scope_witness :
  SampleApp.serve (ApiDataPost {| name := py "widget" |})
    (Sample.bearer "capitals") (py "id-1") Sample.warm
  = (Sample.warm,
     {| resp_status := 403;
        resp_body :=
          JSON (JObject {[ py "detail" :=
                  JString (py "Insufficient scope. Required: " ++ py "write") ]});
        resp_headers := None |}).
Proof.
  apply (proj2 (data_routes_decide_by_scope Sample.get_signing_key_from_jwt
                  Sample.jwt_decode (ApiDataPost {| name := py "widget" |})
                  (py "write") (Sample.bearer "capitals") (py "id-1")
                  Sample.warm Sample.warm (Sample.creds "capitals")
                  (Sample.claims_of (JString (py "Read Write")) [])
                  [py "Read"; py "Write"]
                  eq_refl eq_refl eq_refl eq_refl)).
  vm_compute. intros Hin. apply list_elem_of_In in Hin.
  destruct Hin as [Heq | [Heq | []]]; discriminate.
Defined.

Lemma non_string_scope_breaks_data_routes_witness :
  SampleApp.serve ApiDataGet (Sample.bearer "scope-array") (py "id-1")
    Sample.warm
  = (Sample.warm,
     {| resp_status := 500;
        resp_body := PlainText (py "Internal Server Error");
        resp_headers := None |}).
Proof.
  apply (proj2 (proj2
    (non_string_scope_breaks_data_routes Sample.get_signing_key_from_jwt
       Sample.jwt_decode (Sample.bearer "scope-array") (py "id-1")
       Sample.warm Sample.warm (Sample.creds "scope-array")
       (Sample.claims_of (JArray [JString (py "read")]) [])
       (JArray [JString (py "read")])
       eq_refl eq_refl eq_refl eq_refl (λ s, ltac:(discriminate))))).
  by left.
Defined.

Lemma bearer_header_round_trip_witness :
  HTTPBearer {| authorization := Some (py "bEaReR" ++ py " " ++ py "a b") |}
  = Ok {| scheme := py "bEaReR"; credentials := py "a b" |}.
Proof.
  apply (proj1 (bearer_header_round_trip (py "bEaReR") (py "a b") eq_refl)).
  discriminate.
Defined.

Lemma wait_until_ready_bounded_witness :
  wait_until_ready SampleApp.probe 0 30 = (4%nat, 3%nat).
Proof.
  apply (proj1 (proj2 (wait_until_ready_bounded SampleApp.probe 0 30)) 3%nat).
  - lia.
  - reflexivity.
  - intros j Hj. destruct j as [|[|[|j]]]; [discriminate.. | lia].
Defined.
